(** * Personal Finance Tracker: budget and savings computations

    A shallow embedding of the three computation functions of
    [streamlit_app.py] -- [calculate_budget_metrics],
    [create_savings_chart] and [get_savings_recommendations] -- together
    with the two configuration tables they read, and the properties the
    design document states about them.  The page script around them is
    embedded as far as it computes: the session state, the sidebar, the
    expense form, the overview figures and the data of the category
    chart.

    Numbers.  The program computes with Python numbers (integers from the
    configuration tables, binary floating point for amounts and rates).
    They are embedded as exact rationals [Q]: [0.15] is [15 # 100], and
    the sums, differences, products and quotients of the main embedding
    are exact.  Properties that compare amounts computed along different
    paths depend on rounding; for these [calculate_budget_metrics] is
    embedded a second time with every operation rounded
    ([calculate_budget_metrics_rounded]), [round64] being the rounding of
    binary64.  Equalities between computed amounts are stated with [==]
    (equality of rationals) unless both sides are syntactically the same
    computation, where [=] is used.

    Tables.  A [DataFrame] is embedded as the list of its rows, each with
    a date, a category, an amount and a description.  Column types are not
    part of the embedding: the [Date] column is taken to hold dates, as
    the [.dt] accessor requires, and what pandas does with a column of
    another type is outside the model.

    Failure.  [SALARY_RANGES[label]] raises [KeyError] on an unknown label
    and [/] raises [ZeroDivisionError] on a zero divisor; both are embedded
    with [option], [None] standing for the raised exception. *)

From Stdlib Require Import List String ZArith QArith Qminmax Lqa Lia Bool.
From Stdlib Require Import Qreduction Qround Qabs.
From Stdlib Require Import PrimFloat SpecFloat FloatOps.
From Stdlib Require Import Sorted OrderedTypeEx.
Import ListNotations.

Local Open Scope string_scope.
Local Open Scope list_scope.
Local Open Scope Q_scope.

(** ** Exceptions as [option] *)

Definition ret {A} (a : A) : option A := Some a.

Definition bind {A B} (m : option A) (k : A -> option B) : option B :=
  match m with
  | Some a => k a
  | None => None
  end.

Notation "x <- m ;; k" := (bind m (fun x => k))
  (at level 61, m at next level, right associativity).

(** ** Python numbers *)

(** [a > b] on numbers. *)
Definition Qgtb (a b : Q) : bool :=
  match a ?= b with
  | Gt => true
  | _ => false
  end.

(** [a / b]: raises on a zero divisor.  (Division of a numpy scalar would
    return [inf] with a warning instead; the program never divides by
    zero, see [percentage_of_total], so the difference is not observable.) *)
Definition py_div (a b : Q) : option Q :=
  if Qeq_bool b 0 then None else Some (a / b).

(** [max(a, b)]: the builtin keeps its first argument unless the second is
    strictly greater. *)
Definition py_max (a b : Q) : Q :=
  if Qgtb b a then b else a.

(** [sum(xs)]: left-to-right accumulation from [0]. *)
Definition py_sum (xs : list Q) : Q := fold_left Qplus xs 0.

(** ** Python dictionaries

    A [dict] keeps its items in insertion order and has one item per key:
    assigning to a key that is present replaces the value in place,
    assigning to a new key appends an item. *)

Module PyDict.

Definition dict (V : Type) : Type := list (string * V).

Definition keys {V} (d : dict V) : list string := map fst d.
Definition values {V} (d : dict V) : list V := map snd d.
Definition items {V} (d : dict V) : list (string * V) := d.

Fixpoint get {V} (k : string) (d : dict V) : option V :=
  match d with
  | [] => None
  | (k', v) :: d' => if String.eqb k k' then Some v else get k d'
  end.

Fixpoint set {V} (k : string) (v : V) (d : dict V) : dict V :=
  match d with
  | [] => [(k, v)]
  | (k', v') :: d' =>
      if String.eqb k k' then (k', v) :: d' else (k', v') :: set k v d'
  end.

(** The items of a dictionary have pairwise distinct keys. *)
Definition wf {V} (d : dict V) : Prop := NoDup (keys d).

End PyDict.

Import PyDict.

(** ** Configuration constants *)

Record RangeInfo : Type := mkRangeInfo {
  min : Q;
  max : option Q;            (* [None] is [float('inf')] *)
  savings_target : Q
}.

Definition SALARY_RANGES : dict RangeInfo :=
  [ ("0-10000",     mkRangeInfo 0     (Some 10000) (10 # 100));
    ("10000-20000", mkRangeInfo 10000 (Some 20000) (15 # 100));
    ("20000-30000", mkRangeInfo 20000 (Some 30000) (20 # 100));
    ("30000-40000", mkRangeInfo 30000 (Some 40000) (25 # 100));
    ("40000-50000", mkRangeInfo 40000 (Some 50000) (30 # 100));
    ("50000+",      mkRangeInfo 50000 None         (35 # 100)) ].

Definition BUDGET_CATEGORIES : dict Q :=
  [ ("Groceries", 5000);
    ("Utilities", 3000);
    ("Rent/Mortgage", 15000);
    ("Transportation", 2000);
    ("Dining Out", 3000);
    ("Entertainment", 2000);
    ("Shopping", 4000);
    ("Health", 5000);
    ("Other", 3000) ].

(** ** The expense table *)

(** A point in time as [datetime] and pandas timestamps expose it; the
    program reads only [.month] and [.year]. *)
Record datetime : Type := mkDatetime {
  year : Z;
  month : Z;
  day : Z
}.

(** One row of the expense [DataFrame], with its four columns. *)
Record Row : Type := mkRow {
  Date : datetime;
  Category : string;
  Amount : Q;
  Description : string
}.

Definition DataFrame : Type := list Row.

(** [pd.concat([df, new_expense], ignore_index=True)] with a one-row frame. *)
Definition concat_row (df : DataFrame) (new_expense : Row) : DataFrame :=
  df ++ [new_expense].

(** [df['Amount'].sum()]; the sum of an empty column is [0].  The sum is
    exact here; [fl_Amount_sum] below is the sum with rounding. *)
Definition Amount_sum (df : DataFrame) : Q := py_sum (map Amount df).

(** ** [calculate_budget_metrics] *)

Record CategoryMetric : Type := mkCategoryMetric {
  budget : Q;
  spent : Q;
  remaining : Q;
  percentage : Q
}.

Record Metrics : Type := mkMetrics {
  total_budget : Q;
  total_spent : Q;
  category_metrics : dict CategoryMetric
}.

(** The mask [(df['Date'].dt.month == current_month) &
    (df['Date'].dt.year == current_year)]. *)
Definition month_mask (current_month current_year : Z) (r : Row) : bool :=
  (month (Date r) =? current_month)%Z && (year (Date r) =? current_year)%Z.

(** The mask [monthly_df['Category'] == category]. *)
Definition category_mask (category : string) (r : Row) : bool :=
  String.eqb (Category r) category.

(** [(spent / budget * 100) if budget > 0 else 0]. *)
Definition percentage_of (spent budget : Q) : option Q :=
  if Qgtb budget 0 then q <- py_div spent budget ;; ret (q * 100)
  else ret 0.

(** One iteration of the loop over [budget_categories.items()]. *)
Definition category_step (monthly_df : DataFrame)
    (acc : option (dict CategoryMetric)) (item : string * Q)
    : option (dict CategoryMetric) :=
  let '(category, budget) := item in
  metrics <- acc ;;
  let spent := Amount_sum (filter (category_mask category) monthly_df) in
  pct <- percentage_of spent budget ;;
  ret (set category (mkCategoryMetric budget spent (budget - spent) pct) metrics).

(** The function calls [datetime.now()] twice, once for the month and once
    for the year; [now_month] and [now_year] are the two clock readings. *)
Definition calculate_budget_metrics (now_month now_year : datetime)
    (df : DataFrame) (budget_categories : dict Q) : option Metrics :=
  let current_month := month now_month in
  let current_year := year now_year in
  let monthly_df := filter (month_mask current_month current_year) df in
  let total_budget := py_sum (values budget_categories) in
  let total_spent := Amount_sum monthly_df in
  category_metrics <-
    fold_left (category_step monthly_df) (items budget_categories) (Some []) ;;
  ret (mkMetrics total_budget total_spent category_metrics).

(** ** [create_savings_chart] *)

(** The bar trace of the figure.  The [text] labels, which print the two
    amounts rounded to whole units, are left out. *)
Record Bar : Type := mkBar {
  bar_x : list string;
  bar_y : list Q;
  textposition : string
}.

Record Figure : Type := mkFigure {
  data : list Bar;
  title : string;
  yaxis_title : string;
  showlegend : bool
}.

Definition create_savings_chart (salary_range : string) (total_spent : Q)
    : option Figure :=
  range_info <- get salary_range SALARY_RANGES ;;
  let min_salary := min range_info in
  let savings_target := savings_target range_info in
  let recommended_savings := min_salary * savings_target in
  let actual_savings := py_max 0 (min_salary - total_spent) in
  ret (mkFigure
         [mkBar ["Recommended"; "Actual"]
                [recommended_savings; actual_savings] "auto"]
         "Monthly Savings Analysis" "Amount (₹)" false).

(** ** [get_savings_recommendations] *)

Section Recommendations.

(** How an f-string prints the number [savings_target*100]; the printed
    form of a float is not part of the model. *)
Variable format_number : Q -> string.

Definition warning_tip (savings_target : Q) : string :=
  "⚠️ Your spending is higher than recommended. Try to save at least "
  ++ format_number (savings_target * 100) ++ "% of your income.".

Definition low_tips : list string :=
  [ "🎯 Focus on essential expenses only";
    "🚶‍♂️ Use public transportation when possible";
    "🥘 Cook meals at home instead of eating out" ].

Definition mid_tips : list string :=
  [ "💰 Consider starting an emergency fund";
    "📱 Review and optimize monthly subscriptions";
    "🏦 Look into fixed deposits for savings" ].

Definition high_tips : list string :=
  [ "📈 Consider investing in mutual funds";
    "🏠 Plan for long-term investments";
    "💳 Optimize credit card rewards" ].

(** [x in xs] for a list of strings. *)
Definition str_in (x : string) (xs : list string) : bool :=
  existsb (String.eqb x) xs.

Definition get_savings_recommendations (salary_range : string)
    (total_spent : Q) : option (list string) :=
  range_info <- get salary_range SALARY_RANGES ;;
  let savings_target := savings_target range_info in
  let min_salary := min range_info in
  let recommendations := [] in
  let recommendations :=
    if Qgtb total_spent ((1 - savings_target) * min_salary)
    then recommendations ++ [warning_tip savings_target]
    else recommendations in
  let recommendations :=
    if str_in salary_range ["0-10000"; "10000-20000"]
    then recommendations ++ low_tips
    else if str_in salary_range ["20000-30000"; "30000-40000"]
    then recommendations ++ mid_tips
    else recommendations ++ high_tips in
  ret recommendations.

End Recommendations.

(** ** The page: session state and the savings analysis *)

Record SessionState : Type := mkSessionState {
  expenses_df : DataFrame;
  currency_symbol : string;
  salary_range : string;
  monthly_salary : Q
}.

(** The four figures of the "Monthly Overview" row. *)
Record Overview : Type := mkOverview {
  total_income : Q;
  total_expenses : Q;
  total_savings : Q;
  savings_rate : Q
}.

(** What the page renders below the form. *)
Inductive Page : Type :=
  | Info                                   (* "Start by adding your expenses" *)
  | Analysis (overview : Overview) (budget_metrics : Metrics)
             (savings_fig : Figure) (recommendations : list string).

(** The page body from "Calculate Budget Metrics" on: the overview, the
    metrics, the savings chart and the tips, computed from the session
    state. *)
Definition render (format_number : Q -> string)
    (now_month now_year : datetime) (st : SessionState) : option Page :=
  match expenses_df st with
  | [] => ret Info
  | _ :: _ =>
      budget_metrics <-
        calculate_budget_metrics now_month now_year (expenses_df st)
          BUDGET_CATEGORIES ;;
      let savings :=
        py_max 0 (monthly_salary st - total_spent budget_metrics) in
      savings_rate <- percentage_of savings (monthly_salary st) ;;
      savings_fig <-
        create_savings_chart (salary_range st) (total_spent budget_metrics) ;;
      recommendations <-
        get_savings_recommendations format_number (salary_range st)
          (total_spent budget_metrics) ;;
      ret (Analysis
             (mkOverview (monthly_salary st) (total_spent budget_metrics)
                savings savings_rate)
             budget_metrics savings_fig recommendations)
  end.

(** The "Add Expense" submission: one row is appended to the table. *)
Definition add_expense (st : SessionState) (new_expense : Row) : SessionState :=
  mkSessionState (concat_row (expenses_df st) new_expense)
    (currency_symbol st) (salary_range st) (monthly_salary st).

(** ** The page: session defaults, sidebar and expense form *)

(** The session state of a fresh session.  The table starts without
    rows; that its columns start without a type is not modelled. *)
Definition initial_state : SessionState :=
  mkSessionState [] "₹" "0-10000" 0.

(** The arguments the sidebar passes to the "Enter Exact Monthly Salary"
    number input. *)
Record NumberInput : Type := mkNumberInput {
  min_value : Q;
  max_value : option Q;      (* [None] is [float('inf')] *)
  value : Q
}.

Definition exact_salary_input (selected_salary_range : string)
    : option NumberInput :=
  range_info <- get selected_salary_range SALARY_RANGES ;;
  ret (mkNumberInput
         (min range_info)
         (if negb (String.eqb selected_salary_range "50000+")
          then max range_info else Some 1000000)
         (min range_info)).

(** The sidebar stores the selected bracket and the salary entered. *)
Definition sidebar (st : SessionState) (selected_salary_range : string)
    (exact_salary : Q) : SessionState :=
  mkSessionState (expenses_df st) (currency_symbol st)
    selected_salary_range exact_salary.

(** [a or b] on strings: [a] unless it is empty. *)
Definition str_or (a b : string) : string :=
  match a with
  | EmptyString => b
  | String _ _ => a
  end.

(** The fields of the "Add New Expense" form. *)
Record ExpenseForm : Type := mkExpenseForm {
  date : datetime;
  category : string;
  amount : Q;
  description : string
}.

(** The one-row frame built from a submitted form. *)
Definition form_row (f : ExpenseForm) : Row :=
  mkRow (date f) (category f) (amount f) (str_or (description f) "-").

(** A submitted form appends its row to the table of the session. *)
Definition submit (st : SessionState) (f : ExpenseForm) : SessionState :=
  add_expense st (form_row f).

(** What the user can do between two runs of the script: change the
    sidebar, or submit the expense form. *)
Inductive Interaction : Type :=
  | Select (selected_salary_range : string) (exact_salary : Q)
  | Submit (f : ExpenseForm).

Definition rerun (st : SessionState) (i : Interaction) : SessionState :=
  match i with
  | Select selected_salary_range exact_salary =>
      sidebar st selected_salary_range exact_salary
  | Submit f => submit st f
  end.

(** A number input only returns numbers within its bounds. *)
Definition accepts (inp : NumberInput) (x : Q) : bool :=
  Qle_bool (min_value inp) x &&
  match max_value inp with
  | Some upper => Qle_bool x upper
  | None => true
  end.

(** The inputs the widgets can produce: a bracket among the options of the
    select box (the keys of [SALARY_RANGES]) with a salary within the
    bounds of its number input; a category among the options of the form's
    select box (the keys of [BUDGET_CATEGORIES]) with an amount of at least
    [0.01]. *)
Definition offered (i : Interaction) : bool :=
  match i with
  | Select selected_salary_range exact_salary =>
      match exact_salary_input selected_salary_range with
      | Some inp => accepts inp exact_salary
      | None => false
      end
  | Submit f =>
      str_in (category f) (keys BUDGET_CATEGORIES) &&
      Qle_bool (1 # 100) (amount f)
  end.

(** The session after a sequence of interactions, from a fresh session. *)
Definition session (interactions : list Interaction) : SessionState :=
  fold_left rerun interactions initial_state.

(** The forms submitted in the course of a sequence of interactions. *)
Definition submitted (interactions : list Interaction) : list ExpenseForm :=
  flat_map (fun i => match i with Submit f => [f] | Select _ _ => [] end)
    interactions.

(** What holds of a row that came through the form. *)
Definition form_row_ok (r : Row) : Prop :=
  In (Category r) (keys BUDGET_CATEGORIES) /\
  (1 # 100) <= Amount r /\
  Description r <> "".

(** What holds of a session reached through the widgets. *)
Definition session_ok (st : SessionState) : Prop :=
  (exists info,
      get (salary_range st) SALARY_RANGES = Some info /\
      min info <= monthly_salary st) /\
  Forall form_row_ok (expenses_df st).

(** ** The category chart

    [df.groupby('Category')['Amount'].sum()]: one entry for every category
    that occurs in the table, the keys in ascending order, each with the
    sum of the amounts of its rows -- the rows of all months. *)

(** Insertion of a key into an ascending list without repetitions. *)
Fixpoint insert_key (k : string) (ks : list string) : list string :=
  match ks with
  | [] => [k]
  | k' :: ks' =>
      match String.compare k k' with
      | Lt => k :: ks
      | Eq => ks
      | Gt => k' :: insert_key k ks'
      end
  end.

(** The group keys of a column: its distinct values, ascending. *)
Definition group_keys (column : list string) : list string :=
  fold_right insert_key [] column.

Definition category_spending (df : DataFrame) : dict Q :=
  map (fun k => (k, Amount_sum (filter (category_mask k) df)))
    (group_keys (map Category df)).

(** Keys in strictly ascending order. *)
Definition ascending (ks : list string) : Prop :=
  StronglySorted (fun a b => String.compare a b = Lt) ks.

(** ** Closed forms used in the proofs *)

(** The value the guarded percentage expression returns. *)
Definition percentage_value (spent budget : Q) : Q :=
  if Qgtb budget 0 then spent / budget * 100 else 0.

(** The entry the loop stores for one configured category. *)
Definition category_entry (monthly_df : DataFrame) (item : string * Q)
    : string * CategoryMetric :=
  let spent := Amount_sum (filter (category_mask (fst item)) monthly_df) in
  (fst item,
   mkCategoryMetric (snd item) spent (snd item - spent)
     (percentage_value spent (snd item))).

(** The configured categories' [remaining] values, summed. *)
Definition remaining_sum (m : Metrics) : Q :=
  py_sum (map remaining (values (category_metrics m))).

(** The rows whose category is one of the table's keys. *)
Definition configured_mask (cats : dict Q) (r : Row) : bool :=
  str_in (Category r) (keys cats).

(** The tiers of the rule table, as the design document words them: the
    two lowest brackets are the low tier, the next two the mid tier, and
    every other bracket the high tier. *)
Inductive Tier : Type := Low | Mid | High.

Definition tier_of_label (label : string) : Tier :=
  if String.eqb label "0-10000" then Low
  else if String.eqb label "10000-20000" then Low
  else if String.eqb label "20000-30000" then Mid
  else if String.eqb label "30000-40000" then Mid
  else High.

Definition tier_tips (t : Tier) : list string :=
  match t with
  | Low => low_tips
  | Mid => mid_tips
  | High => high_tips
  end.

(** Spending above this amount has eaten into the savings margin. *)
Definition savings_margin (info : RangeInfo) : Q :=
  (1 - savings_target info) * min info.

(** The sidebar's assignment [st.session_state.monthly_salary = exact_salary]. *)
Definition set_monthly_salary (st : SessionState) (exact_salary : Q)
    : SessionState :=
  mkSessionState (expenses_df st) (currency_symbol st) (salary_range st)
    exact_salary.

(** The savings analysis of a rendered page: its chart and its tips. *)
Definition savings_part (p : Page) : option (Figure * list string) :=
  match p with
  | Info => None
  | Analysis _ _ fig recs => Some (fig, recs)
  end.

(** The two amounts the chart plots, in the order of its bars. *)
Definition plotted (fig : Figure) : list (list Q) := map bar_y (data fig).

(** ** The bracket table in binary64

    The program's rates are binary64 numbers, and [0.15] is not exactly
    15/100.  The definitions below redo the two products the savings
    functions compute from the table in binary64, so that their results
    can be compared with the rational ones. *)

(** The exact value of a finite binary64 number. *)
Definition Q_of_float (f : float) : option Q :=
  match Prim2SF f with
  | S754_zero _ => Some 0
  | S754_finite s m e =>
      Some ((if s then - (1) else 1) * inject_Z (Z.pos m) * 2 ^ e)
  | S754_infinity _ | S754_nan => None
  end.

(** [min] and [savings_target] of each bracket, as the floats Python
    computes with. *)
#[warnings="-inexact-float"]
Definition SALARY_RANGES_binary64 : list (string * (float * float)) :=
  [ ("0-10000",     (0%float,     0.10%float));
    ("10000-20000", (10000%float, 0.15%float));
    ("20000-30000", (20000%float, 0.20%float));
    ("30000-40000", (30000%float, 0.25%float));
    ("40000-50000", (40000%float, 0.30%float));
    ("50000+",      (50000%float, 0.35%float)) ].

(** [min_salary * savings_target] in binary64. *)
Definition recommended_binary64 (range : float * float) : float :=
  (fst range * snd range)%float.

(** [(1 - savings_target) * min_salary] in binary64. *)
Definition margin_binary64 (range : float * float) : float :=
  ((1 - snd range) * fst range)%float.

(** A binary64 number that is exactly the rational [q]. *)
Definition exactly (f : float) (q : Q) : Prop :=
  exists q', Q_of_float f = Some q' /\ q' == q.

(** ** Rounded arithmetic

    The amounts of the program are binary64 numbers and every sum,
    difference, product and quotient it computes is rounded.  The
    definitions above compute in exact rationals; the ones below repeat
    [calculate_budget_metrics] with every operation followed by a rounding
    function [rnd], so that an identity between amounts computed along
    different paths can be checked against rounding.  [round64] is the
    rounding of binary64 (to nearest, ties to even) for numbers in the
    normal range; overflow and subnormal numbers are not modelled. *)

(** [n / d] rounded to the nearest integer, ties to the even one. *)
Definition round_half_even (n d : Z) : Z :=
  let (k, r) := Z.div_eucl n d in
  match (2 * r ?= d)%Z with
  | Lt => k
  | Gt => (k + 1)%Z
  | Eq => if Z.even k then k else (k + 1)%Z
  end.

(** Numerator and denominator of [a / d * 2 ^ (- e)]. *)
Definition scaled (a d e : Z) : Z * Z :=
  if (0 <=? e)%Z then (a, d * 2 ^ e)%Z else (a * 2 ^ (- e), d)%Z.

(** The exponent [e] with [2 ^ 52 <= a / d * 2 ^ (- e) < 2 ^ 53]. *)
Definition exponent64 (a d : Z) : Z :=
  let e0 := (Z.log2 a - Z.log2 d - 52)%Z in
  let (n0, d0) := scaled a d e0 in
  if (n0 <? d0 * 2 ^ 52)%Z then (e0 - 1)%Z else e0.

Definition round64 (q : Q) : Q :=
  let q := Qred q in
  let n := Qnum q in
  let d := Z.pos (Qden q) in
  if (n =? 0)%Z then 0
  else
    let e := exponent64 (Z.abs n) d in
    let (n', d') := scaled (Z.abs n) d e in
    let v := (Z.sgn n * round_half_even n' d')%Z in
    if (0 <=? e)%Z then inject_Z (v * 2 ^ e) else v # Z.to_pos (2 ^ (- e)).

(** What the proofs below use of a rounding function: it respects
    equality of rationals and leaves whole numbers below [2 ^ 53] as they
    are. *)
Record rounding (rnd : Q -> Q) : Prop := mkRounding {
  rnd_proper : forall a b, a == b -> rnd a == rnd b;
  rnd_whole : forall z, (Z.abs z < 2 ^ 53)%Z -> rnd (inject_Z z) == inject_Z z
}.

Section Rounded.

Variable rnd : Q -> Q.

Definition fl_add (a b : Q) : Q := rnd (a + b).
Definition fl_sub (a b : Q) : Q := rnd (a - b).
Definition fl_mul (a b : Q) : Q := rnd (a * b).

Definition fl_div (a b : Q) : option Q :=
  if Qeq_bool b 0 then None else Some (rnd (a / b)).

(** A sum accumulated from left to right, rounded at every step. *)
Definition fl_sum (xs : list Q) : Q := fold_left fl_add xs 0.

Definition fl_Amount_sum (df : DataFrame) : Q := fl_sum (map Amount df).

Definition fl_percentage_of (spent budget : Q) : option Q :=
  if Qgtb budget 0 then q <- fl_div spent budget ;; ret (fl_mul q 100)
  else ret 0.

Definition fl_category_step (monthly_df : DataFrame)
    (acc : option (dict CategoryMetric)) (item : string * Q)
    : option (dict CategoryMetric) :=
  let '(category, budget) := item in
  metrics <- acc ;;
  let spent := fl_Amount_sum (filter (category_mask category) monthly_df) in
  pct <- fl_percentage_of spent budget ;;
  ret (set category
         (mkCategoryMetric budget spent (fl_sub budget spent) pct) metrics).

(** [calculate_budget_metrics] with rounded arithmetic.  (Over a table of
    Python integers, as [BUDGET_CATEGORIES], the built-in [sum] of the
    values is exact; the rounded sum agrees with it on whole numbers below
    [2 ^ 53].) *)
Definition calculate_budget_metrics_rounded (now_month now_year : datetime)
    (df : DataFrame) (budget_categories : dict Q) : option Metrics :=
  let current_month := month now_month in
  let current_year := year now_year in
  let monthly_df := filter (month_mask current_month current_year) df in
  let total_budget := fl_sum (values budget_categories) in
  let total_spent := fl_Amount_sum monthly_df in
  category_metrics <-
    fold_left (fl_category_step monthly_df) (items budget_categories)
      (Some []) ;;
  ret (mkMetrics total_budget total_spent category_metrics).

(** The configured categories' [remaining] values, summed with rounding. *)
Definition remaining_sum_rounded (m : Metrics) : Q :=
  fl_sum (map remaining (values (category_metrics m))).

End Rounded.

(** A whole number. *)
Definition whole (q : Q) : Prop := inject_Z (Qfloor q) == q.

(** The sum of the absolute values of a list of numbers. *)
Definition magnitude (xs : list Q) : Q := py_sum (map Qabs xs).

(** The same closed forms for the rounded computation. *)
Definition fl_percentage_value (rnd : Q -> Q) (spent budget : Q) : Q :=
  if Qgtb budget 0 then fl_mul rnd (rnd (spent / budget)) 100 else 0.

Definition fl_category_entry (rnd : Q -> Q) (monthly_df : DataFrame)
    (item : string * Q) : string * CategoryMetric :=
  let spent :=
    fl_Amount_sum rnd (filter (category_mask (fst item)) monthly_df) in
  (fst item,
   mkCategoryMetric (snd item) spent (fl_sub rnd (snd item) spent)
     (fl_percentage_value rnd spent (snd item))).

(** A row with the absolute value of its amount. *)
Definition abs_row (r : Row) : Row :=
  mkRow (Date r) (Category r) (Qabs (Amount r)) (Description r).

(** Sample inputs. *)
Definition june5 : datetime := mkDatetime 2024 6 5.
Definition june30 : datetime := mkDatetime 2024 6 30.
Definition may31 : datetime := mkDatetime 2024 5 31.
Definition groceries_only : dict Q := [("Groceries", 5000)].
Definition two_caps : dict Q := [("Groceries", 5000); ("Gifts", 0)].
Definition plain_number (q : Q) : string := "n".

(** Whole-number rows of two months, and a single row of two cents. *)
Definition whole_df : DataFrame :=
  [ mkRow june5 "Groceries" 1200 "market";
    mkRow june30 "Utilities" 250 "power";
    mkRow may31 "Shopping" 80 "-";
    mkRow june5 "Dining Out" 45 "-" ].

Definition two_cents : DataFrame :=
  [ mkRow june5 "Groceries" (round64 (2 # 100)) "-" ].

Definition dec31 : datetime := mkDatetime 2024 12 31.
Definition jan1 : datetime := mkDatetime 2025 1 1.

(** Sample table and session. *)
Definition sample_df : DataFrame :=
  [ mkRow june5 "Groceries" 6000 "-";
    mkRow may31 "Travel" 100 "-";
    mkRow june30 "Utilities" 250 "power" ].

Definition sample_interactions : list Interaction :=
  [ Submit (mkExpenseForm may31 "Rent/Mortgage" 15000 "");
    Select "20000-30000" 25000;
    Submit (mkExpenseForm june5 "Groceries" 1200 "market") ].

(** * Properties *)

(** ** Numbers *)

Lemma Qgtb_true (a b : Q) : Qgtb a b = true <-> b < a.
Proof.
  unfold Qgtb. rewrite (Qgt_alt a b).
  destruct (a ?= b); intuition discriminate.
Qed.

Lemma Qgtb_false (a b : Q) : Qgtb a b = false <-> a <= b.
Proof.
  unfold Qgtb. rewrite (Qle_alt a b).
  destruct (a ?= b); intuition discriminate.
Qed.

Lemma py_div_nonzero (a b : Q) : ~ b == 0 -> py_div a b = Some (a / b).
Proof.
  intros Hb. unfold py_div.
  destruct (Qeq_bool b 0) eqn:E; [|reflexivity].
  apply Qeq_bool_eq in E. contradiction.
Qed.

Lemma py_max_Qmax (a b : Q) : py_max a b = Qmax a b.
Proof.
  unfold py_max, Qgtb, Qmax, GenericMinMax.gmax.
  rewrite <- (Qcompare_antisym a b).
  destruct (a ?= b); reflexivity.
Qed.

Lemma fold_left_Qplus_acc (xs : list Q) (a : Q) :
  fold_left Qplus xs a == a + fold_left Qplus xs 0.
Proof.
  revert a. induction xs as [|x xs IH]; intros a; simpl.
  - ring.
  - rewrite (IH (a + x)), (IH (0 + x)). ring.
Qed.


Lemma py_sum_cons (x : Q) (xs : list Q) : py_sum (x :: xs) == x + py_sum xs.
Proof.
  unfold py_sum. simpl. rewrite fold_left_Qplus_acc. ring.
Qed.


Lemma Amount_sum_cons (r : Row) (df : DataFrame) :
  Amount_sum (r :: df) == Amount r + Amount_sum df.
Proof. unfold Amount_sum. simpl. apply py_sum_cons. Qed.


(** ** Dictionaries *)

Section DictFacts.

Context {V : Type}.

Lemma set_fresh (k : string) (v : V) (d : dict V) :
  ~ In k (keys d) -> set k v d = d ++ [(k, v)].
Proof.
  induction d as [|[k' v'] d IH]; simpl; intros Hk; [reflexivity|].
  destruct (String.eqb_spec k k') as [->|_].
  - exfalso. apply Hk. now left.
  - rewrite IH; [reflexivity|]. intros H. apply Hk. now right.
Qed.

Lemma get_In (k : string) (v : V) (d : dict V) :
  wf d -> In (k, v) d -> get k d = Some v.
Proof.
  unfold wf. induction d as [|[k' v'] d IH]; simpl; intros Hnd Hin; [easy|].
  inversion Hnd as [|? ? Hk' Hnd']; subst.
  destruct Hin as [Heq|Hin].
  - inversion Heq; subst. now rewrite String.eqb_refl.
  - destruct (String.eqb_spec k k') as [->|_]; [|now apply IH].
    exfalso. apply Hk'. apply (in_map fst) in Hin. exact Hin.
Qed.

Lemma get_Some_In (k : string) (v : V) (d : dict V) :
  get k d = Some v -> In (k, v) d.
Proof.
  induction d as [|[k' v'] d IH]; simpl; [discriminate|].
  destruct (String.eqb_spec k k') as [->|_].
  - intros [= ->]. now left.
  - intros H. right. now apply IH.
Qed.

End DictFacts.

Lemma str_in_In (x : string) (xs : list string) :
  str_in x xs = true <-> In x xs.
Proof.
  unfold str_in. rewrite existsb_exists. split.
  - intros [y [Hy E]]. apply String.eqb_eq in E. now subst.
  - intros H. exists x. split; [exact H|apply String.eqb_refl].
Qed.

(** ** The loop of [calculate_budget_metrics] *)

Lemma percentage_of_total (spent budget : Q) :
  percentage_of spent budget = Some (percentage_value spent budget).
Proof.
  unfold percentage_of, percentage_value.
  destruct (Qgtb budget 0) eqn:E; [|reflexivity].
  apply Qgtb_true in E.
  rewrite py_div_nonzero; [reflexivity|].
  intros H. rewrite H in E. now apply Qlt_irrefl in E.
Qed.

Lemma category_step_entry (monthly_df : DataFrame)
    (acc : dict CategoryMetric) (item : string * Q) :
  category_step monthly_df (Some acc) item =
  Some (set (fst item) (snd (category_entry monthly_df item)) acc).
Proof.
  destruct item as [category budget]. unfold category_step. simpl.
  now rewrite percentage_of_total.
Qed.

Lemma category_loop_wf (monthly_df : DataFrame) (cats : dict Q) :
  forall acc : dict CategoryMetric,
    wf cats ->
    (forall k, In k (keys cats) -> ~ In k (keys acc)) ->
    fold_left (category_step monthly_df) cats (Some acc) =
    Some (acc ++ map (category_entry monthly_df) cats).
Proof.
  unfold wf. induction cats as [|[c b] cats IH]; intros acc Hnd Hdisj;
    cbn [fold_left map].
  - now rewrite app_nil_r.
  - inversion Hnd as [|? ? Hc Hnd']; subst.
    rewrite category_step_entry. cbn [fst snd category_entry].
    rewrite set_fresh by (apply Hdisj; now left).
    rewrite IH; [now rewrite <- app_assoc| exact Hnd' |].
    intros k Hk. unfold keys. rewrite map_app. simpl. intros Hin.
    apply in_app_or in Hin. destruct Hin as [Hin|[<-|[]]].
    + apply (Hdisj k); [now right|exact Hin].
    + apply Hc. exact Hk.
Qed.

(** The loop never raises: whatever the table, every iteration stores an
    entry. *)
Lemma category_loop_total (monthly_df : DataFrame) (cats : dict Q) :
  forall acc : dict CategoryMetric,
    exists d, fold_left (category_step monthly_df) cats (Some acc) = Some d.
Proof.
  induction cats as [|item cats IH]; intros acc; cbn [fold_left].
  - now eexists.
  - rewrite category_step_entry. apply IH.
Qed.

(** The function returns for every table of expenses and every list of
    budget items. *)
Lemma calculate_budget_metrics_total (now_month now_year : datetime)
    (df : DataFrame) (cats : dict Q) :
  exists m, calculate_budget_metrics now_month now_year df cats = Some m.
Proof.
  unfold calculate_budget_metrics, items. cbv zeta.
  destruct (category_loop_total
              (filter (month_mask (month now_month) (year now_year)) df)
              cats []) as [d Hd].
  unfold dict in *. rewrite Hd. now eexists.
Qed.

Lemma calculate_budget_metrics_wf (now_month now_year : datetime)
    (df : DataFrame) (cats : dict Q) :
  wf cats ->
  let monthly_df := filter (month_mask (month now_month) (year now_year)) df in
  calculate_budget_metrics now_month now_year df cats =
  Some (mkMetrics (py_sum (values cats)) (Amount_sum monthly_df)
          (map (category_entry monthly_df) cats)).
Proof.
  intros Hwf monthly_df. unfold calculate_budget_metrics, items.
  fold monthly_df.
  rewrite category_loop_wf; [reflexivity|exact Hwf|].
  intros k _ [].
Qed.


Lemma calculate_budget_metrics_inv (now_month now_year : datetime)
    (df : DataFrame) (cats : dict Q) (m : Metrics) :
  wf cats ->
  calculate_budget_metrics now_month now_year df cats = Some m ->
  let monthly_df := filter (month_mask (month now_month) (year now_year)) df in
  m = mkMetrics (py_sum (values cats)) (Amount_sum monthly_df)
        (map (category_entry monthly_df) cats).
Proof.
  intros Hwf Hm. pose proof (calculate_budget_metrics_wf now_month now_year
                               df cats Hwf) as E.
  cbv zeta in *. congruence.
Qed.

(** ** The budget snapshot *)

(** C5.  The percentage expression never raises; for every configured
    category the stored percentage is [spent / budget * 100] when the
    budget is positive and [0] when the budget is zero, so the division is
    never reached with a zero divisor. *)
Theorem percentage_guarded (now_month now_year : datetime)
    (df : DataFrame) (cats : dict Q) :
  wf cats ->
  (forall spent b : Q,
      percentage_of spent b <> None /\
      (0 < b -> percentage_of spent b = Some (spent / b * 100)) /\
      (b == 0 -> percentage_of spent b = Some 0)) /\
  exists m,
    calculate_budget_metrics now_month now_year df cats = Some m /\
    forall c b, In (c, b) cats ->
      exists e,
        get c (category_metrics m) = Some e /\
        budget e = b /\
        (0 < b -> percentage e = spent e / b * 100) /\
        (b == 0 -> percentage e = 0).
Proof.
  intros Hwf. split.
  - intros spent b. rewrite percentage_of_total. unfold percentage_value.
    split; [discriminate|]. split; intros Hb.
    + apply Qgtb_true in Hb. now rewrite Hb.
    + assert (E : Qgtb b 0 = false) by (apply Qgtb_false; rewrite Hb; apply Qle_refl).
      now rewrite E.
  - rewrite calculate_budget_metrics_wf by exact Hwf. cbv zeta.
    eexists. split; [reflexivity|]. cbn [category_metrics].
    intros c b Hin.
    set (monthly_df := filter _ df).
    exists (snd (category_entry monthly_df (c, b))). split.
    + apply get_In.
      * unfold wf, keys. rewrite map_map. cbn [category_entry fst]. exact Hwf.
      * apply (in_map (category_entry monthly_df)) in Hin. exact Hin.
    + cbn [category_entry snd fst budget percentage spent].
      split; [reflexivity|]. unfold percentage_value. split; intros Hb.
      * apply Qgtb_true in Hb. now rewrite Hb.
      * assert (E : Qgtb b 0 = false) by (apply Qgtb_false; rewrite Hb; apply Qle_refl).
        now rewrite E.
Qed.

(** Splitting this month's rows by configured category. *)

Lemma filter_none {A} (f : A -> bool) (l : list A) :
  (forall x, In x l -> f x = false) -> filter f l = [].
Proof.
  induction l as [|x l IH]; simpl; intros H; [reflexivity|].
  rewrite (H x) by now left. apply IH. intros y Hy. apply H. now right.
Qed.

Lemma filter_all {A} (f : A -> bool) (l : list A) :
  (forall x, In x l -> f x = true) -> filter f l = l.
Proof.
  induction l as [|x l IH]; simpl; intros H; [reflexivity|].
  rewrite (H x) by now left. f_equal. apply IH. intros y Hy. apply H. now right.
Qed.

Lemma configured_mask_cons (c : string) (b : Q) (cats : dict Q) (r : Row) :
  configured_mask ((c, b) :: cats) r =
  category_mask c r || configured_mask cats r.
Proof. reflexivity. Qed.

Lemma Amount_sum_split (c : string) (b : Q) (cats : dict Q) (df : DataFrame) :
  ~ In c (keys cats) ->
  Amount_sum (filter (configured_mask ((c, b) :: cats)) df) ==
  Amount_sum (filter (category_mask c) df) +
  Amount_sum (filter (configured_mask cats) df).
Proof.
  intros Hc. induction df as [|r df IH]; [reflexivity|].
  cbn [filter]. rewrite configured_mask_cons.
  destruct (category_mask c r) eqn:Ec; cbn [orb].
  - assert (En : configured_mask cats r = false).
    { destruct (configured_mask cats r) eqn:E; [|reflexivity].
      apply str_in_In in E. apply String.eqb_eq in Ec.
      rewrite Ec in E. contradiction. }
    rewrite En, !Amount_sum_cons, IH. ring.
  - destruct (configured_mask cats r).
    + rewrite !Amount_sum_cons, IH. ring.
    + exact IH.
Qed.

Lemma category_spent_sum (cats : dict Q) (df : DataFrame) :
  wf cats ->
  py_sum (map (fun e => spent (snd (category_entry df e))) cats) ==
  Amount_sum (filter (configured_mask cats) df).
Proof.
  unfold wf. induction cats as [|[c b] cats IH]; intros Hnd.
  - rewrite filter_none; [reflexivity|]. intros r _. reflexivity.
  - inversion Hnd as [|? ? Hc Hnd']; subst.
    cbn [map]. rewrite py_sum_cons, IH by exact Hnd'.
    rewrite (Amount_sum_split c b cats df Hc). reflexivity.
Qed.

Lemma category_remaining_sum (cats : dict Q) (df : DataFrame) :
  py_sum (map remaining (values (map (category_entry df) cats))) ==
  py_sum (values cats) -
  py_sum (map (fun e => spent (snd (category_entry df e))) cats).
Proof.
  unfold values. induction cats as [|[c b] cats IH].
  - reflexivity.
  - cbn [map]. rewrite !py_sum_cons, IH.
    cbn [category_entry snd fst remaining spent]. ring.
Qed.

(** In exact arithmetic the configured categories' remaining amounts add
    up to the total budget less what was spent this month in configured
    categories; when every row of this month carries a configured
    category, that is the total budget less [total_spent]. *)
Lemma remaining_sum_exact (now_month now_year : datetime)
    (df : DataFrame) (cats : dict Q) :
  wf cats ->
  exists m,
    calculate_budget_metrics now_month now_year df cats = Some m /\
    let monthly_df :=
      filter (month_mask (month now_month) (year now_year)) df in
    total_spent m = Amount_sum monthly_df /\
    remaining_sum m ==
      total_budget m - Amount_sum (filter (configured_mask cats) monthly_df) /\
    ((forall r, In r monthly_df -> In (Category r) (keys cats)) ->
     remaining_sum m == total_budget m - total_spent m).
Proof.
  intros Hwf. rewrite calculate_budget_metrics_wf by exact Hwf. cbv zeta.
  eexists. split; [reflexivity|].
  set (monthly_df := filter _ df).
  unfold remaining_sum. cbn [category_metrics total_budget total_spent].
  split; [reflexivity|].
  assert (E : py_sum (map remaining (values (map (category_entry monthly_df) cats)))
              == py_sum (values cats)
                 - Amount_sum (filter (configured_mask cats) monthly_df)).
  { rewrite category_remaining_sum, category_spent_sum by exact Hwf.
    reflexivity. }
  split; [exact E|].
  intros Hall. rewrite E.
  rewrite (filter_all (configured_mask cats) monthly_df); [reflexivity|].
  intros r Hr. apply str_in_In. apply Hall. exact Hr.
Qed.

(** ** Appending rows *)

Lemma Amount_sum_nonneg (df : DataFrame) :
  (forall r, In r df -> 0 <= Amount r) -> 0 <= Amount_sum df.
Proof.
  induction df as [|r df IH]; intros H.
  - apply Qle_refl.
  - rewrite Amount_sum_cons.
    assert (0 <= Amount r) by (apply H; now left).
    assert (0 <= Amount_sum df) by (apply IH; intros x Hx; apply H; now right).
    lra.
Qed.





(** C7.  A row dated outside the month and year read from the clock does
    not change the result: appending it yields the same metrics, field for
    field. *)
Theorem append_other_month (now_month now_year : datetime)
    (df : DataFrame) (cats : dict Q) (r : Row) :
  month (Date r) <> month now_month \/ year (Date r) <> year now_year ->
  calculate_budget_metrics now_month now_year (concat_row df r) cats =
  calculate_budget_metrics now_month now_year df cats.
Proof.
  intros Hr. unfold calculate_budget_metrics, concat_row. cbv zeta.
  rewrite filter_app. cbn [filter].
  assert (E : month_mask (month now_month) (year now_year) r = false).
  { unfold month_mask. apply andb_false_iff.
    destruct Hr as [H|H]; [left|right]; now apply Z.eqb_neq. }
  rewrite E, app_nil_r. reflexivity.
Qed.

(** ** The savings chart *)

(** C3.  For every bracket of the table the chart's first bar is the
    bracket's minimum income times its savings target, whatever was
    spent. *)
Theorem recommended_savings_exact (label : string) (info : RangeInfo)
    (total_spent : Q) :
  get label SALARY_RANGES = Some info ->
  exists fig actual,
    create_savings_chart label total_spent = Some fig /\
    plotted fig = [[min info * savings_target info; actual]].
Proof.
  intros Hget. unfold create_savings_chart. rewrite Hget.
  cbn [bind ret]. do 2 eexists. split; reflexivity.
Qed.

(** C4.  For every bracket the chart's second bar is
    [max(0, min - total_spent)], hence [0] once spending reaches the
    bracket's minimum income; the exact salary kept in the session state
    plays no part in the chart or the tips the page shows. *)
Theorem actual_savings_clamped (label : string) (info : RangeInfo)
    (total_spent : Q) :
  get label SALARY_RANGES = Some info ->
  (exists fig recommended actual,
      create_savings_chart label total_spent = Some fig /\
      plotted fig = [[recommended; actual]] /\
      actual = Qmax 0 (min info - total_spent) /\
      (min info <= total_spent -> actual = 0)) /\
  (forall format_number now_month now_year st exact_salary,
      option_map savings_part
        (render format_number now_month now_year
           (set_monthly_salary st exact_salary)) =
      option_map savings_part
        (render format_number now_month now_year st)).
Proof.
  intros Hget. split.
  - unfold create_savings_chart. rewrite Hget. cbn [bind ret].
    do 3 eexists. split; [reflexivity|]. split; [reflexivity|].
    split; [apply py_max_Qmax|].
    intros Hle. unfold py_max.
    assert (E : Qgtb (min info - total_spent) 0 = false)
      by (apply Qgtb_false; lra).
    now rewrite E.
  - intros format_number now_month now_year [df cur range salary] exact_salary.
    unfold render, set_monthly_salary.
    cbn [expenses_df salary_range currency_symbol monthly_salary].
    destruct df as [|r df]; [reflexivity|].
    destruct (calculate_budget_metrics _ _ _ _) as [m|]; [|reflexivity].
    cbn [bind]. rewrite !percentage_of_total. cbn [bind].
    destruct (create_savings_chart _ _) as [fig|]; [|reflexivity].
    cbn [bind].
    destruct (get_savings_recommendations _ _ _) as [recs|]; reflexivity.
Qed.

(** ** The tips *)

Section TipFacts.

Variable format_number : Q -> string.

Lemma tier_branch (label : string) (recs : list string) :
  (if str_in label ["0-10000"; "10000-20000"]
   then recs ++ low_tips
   else if str_in label ["20000-30000"; "30000-40000"]
   then recs ++ mid_tips
   else recs ++ high_tips) = recs ++ tier_tips (tier_of_label label).
Proof.
  unfold str_in, tier_of_label. cbn [existsb].
  destruct (String.eqb label "0-10000"); [reflexivity|].
  destruct (String.eqb label "10000-20000"); [reflexivity|].
  destruct (String.eqb label "20000-30000"); [reflexivity|].
  destruct (String.eqb label "30000-40000"); reflexivity.
Qed.

Lemma recommendations_closed_form (label : string) (info : RangeInfo)
    (total_spent : Q) :
  get label SALARY_RANGES = Some info ->
  get_savings_recommendations format_number label total_spent =
  Some ((if Qgtb total_spent (savings_margin info)
         then [warning_tip format_number (savings_target info)]
         else []) ++ tier_tips (tier_of_label label)).
Proof.
  intros Hget. unfold get_savings_recommendations. rewrite Hget.
  cbn [bind ret]. cbv zeta. rewrite tier_branch. unfold savings_margin.
  destruct (Qgtb total_spent _); reflexivity.
Qed.

Lemma tier_tips_length (t : Tier) : List.length (tier_tips t) = 3%nat.
Proof. destruct t; reflexivity. Qed.

(** The warning starts with another character than every fixed tip. *)
Lemma warning_not_fixed (rate : Q) (t : Tier) :
  ~ In (warning_tip format_number rate) (tier_tips t).
Proof.
  unfold warning_tip.
  destruct t; cbn [tier_tips low_tips mid_tips high_tips In];
    intros [H|[H|[H|[]]]]; cbn [append] in H; discriminate H.
Qed.

End TipFacts.

(** C6.  The tips are the three fixed tips of the bracket's tier, with the
    warning put in front exactly when spending exceeds
    [(1 - savings_target) * min]; bracket "20000-30000" with 18000 spent
    gets the warning followed by the three mid-tier tips. *)
Theorem tips_by_tier (format_number : Q -> string) (label : string)
    (info : RangeInfo) (total_spent : Q) :
  get label SALARY_RANGES = Some info ->
  let warning := warning_tip format_number (savings_target info) in
  let fixed := tier_tips (tier_of_label label) in
  (exists recs,
      get_savings_recommendations format_number label total_spent
        = Some recs /\
      (savings_margin info < total_spent -> recs = warning :: fixed) /\
      (total_spent <= savings_margin info -> recs = fixed) /\
      (In warning recs <-> savings_margin info < total_spent)) /\
  get_savings_recommendations format_number "20000-30000" 18000 =
    Some (warning_tip format_number (20 # 100) :: mid_tips).
Proof.
  intros Hget warning fixed. split; [|reflexivity].
  rewrite (recommendations_closed_form format_number label info total_spent Hget).
  fold warning. fold fixed. eexists. split; [reflexivity|].
  destruct (Qgtb total_spent (savings_margin info)) eqn:E.
  - apply Qgtb_true in E. cbn [app].
    split; [reflexivity|]. split; [intros Hle; lra|].
    split; [intros _; exact E|intros _; now left].
  - apply Qgtb_false in E. cbn [app].
    split; [intros Hlt; lra|]. split; [reflexivity|].
    split; [|intros Hlt; lra].
    intros Hin. exfalso.
    exact (warning_not_fixed format_number (savings_target info)
             (tier_of_label label) Hin).
Qed.

(** C10.  For every bracket of the table there are three fixed tips,
    chosen by the label alone, such that the list returned is these three
    when spending is at most [(1 - savings_target) * min] and the warning
    followed by these three otherwise; it is never empty. *)
Theorem tips_length (label : string) (info : RangeInfo) :
  get label SALARY_RANGES = Some info ->
  exists fixed : list string,
    List.length fixed = 3%nat /\
    forall (format_number : Q -> string) (total_spent : Q),
    exists recs,
      get_savings_recommendations format_number label total_spent
        = Some recs /\
      recs <> [] /\
      (total_spent <= savings_margin info ->
       List.length recs = 3%nat /\ recs = fixed) /\
      (~ total_spent <= savings_margin info ->
       List.length recs = 4%nat /\ tl recs = fixed).
Proof.
  intros Hget. exists (tier_tips (tier_of_label label)).
  split; [apply tier_tips_length|].
  intros format_number total_spent.
  rewrite (recommendations_closed_form format_number label info total_spent Hget).
  eexists. split; [reflexivity|].
  pose proof (tier_tips_length (tier_of_label label)) as Hlen.
  destruct (Qgtb total_spent (savings_margin info)) eqn:E; cbn [app].
  - apply Qgtb_true in E. split; [discriminate|].
    split; [intros Hle; lra|]. intros _. cbn [List.length tl].
    now rewrite Hlen.
  - apply Qgtb_false in E. split.
    + intros Hnil. rewrite Hnil in Hlen. discriminate Hlen.
    + split; [intros _; now split|]. intros Hn. contradiction.
Qed.

(** C9.  For the bracket "0-10000", whose minimum income is 0, both bars
    of the chart are 0 for every non-negative amount spent, and the
    warning is among the tips exactly when something was spent. *)
Theorem lowest_bracket (format_number : Q -> string) (total_spent : Q) :
  0 <= total_spent ->
  exists fig recommended actual recs,
    create_savings_chart "0-10000" total_spent = Some fig /\
    plotted fig = [[recommended; actual]] /\
    recommended == 0 /\
    actual == 0 /\
    get_savings_recommendations format_number "0-10000" total_spent
      = Some recs /\
    (In (warning_tip format_number (10 # 100)) recs <-> 0 < total_spent).
Proof.
  intros Hpos.
  set (info := mkRangeInfo 0 (Some 10000) (10 # 100)).
  assert (Hget : get "0-10000" SALARY_RANGES = Some info) by reflexivity.
  rewrite (recommendations_closed_form format_number _ info total_spent Hget).
  unfold create_savings_chart. rewrite Hget. cbn [bind ret].
  do 4 eexists. split; [reflexivity|]. split; [reflexivity|].
  split; [reflexivity|].
  assert (Hthr : savings_margin info == 0) by reflexivity.
  split; [|split; [reflexivity|]].
  - unfold py_max. cbn [min info].
    assert (E : Qgtb (0 - total_spent) 0 = false) by (apply Qgtb_false; lra).
    rewrite E. reflexivity.
  - cbn [savings_target info tier_of_label].
    destruct (Qgtb total_spent (savings_margin info)) eqn:E; cbn [app].
    + apply Qgtb_true in E. split; [intros _; lra|intros _; now left].
    + apply Qgtb_false in E. split; [|intros Hlt; lra].
      intros Hin. exfalso.
      exact (warning_not_fixed format_number (10 # 100)
               (tier_of_label "0-10000") Hin).
Qed.

(** * Concrete runs *)

Ltac wf_dict :=
  unfold wf, keys; cbn [map fst];
  repeat (constructor; [cbn [In]; intuition discriminate|]);
  constructor.

Lemma wf_BUDGET_CATEGORIES : wf BUDGET_CATEGORIES.
Proof. wf_dict. Qed.

Lemma wf_SALARY_RANGES : wf SALARY_RANGES.
Proof. wf_dict. Qed.

(** A June purchase above the cap: spent 6000 of 5000, 120 percent used. *)
Example groceries_over_budget :
  exists m e,
    calculate_budget_metrics june5 june30
      [mkRow june5 "Groceries" 6000 "-"] groceries_only = Some m /\
    total_spent m == 6000 /\
    get "Groceries" (category_metrics m) = Some e /\
    spent e == 6000 /\ remaining e == - (1000) /\ percentage e == 120.
Proof. do 2 eexists. repeat split; reflexivity. Qed.

(** No expenses: nothing spent, every category untouched. *)
Example empty_log :
  exists m,
    calculate_budget_metrics june5 june5 [] BUDGET_CATEGORIES = Some m /\
    total_spent m = 0 /\
    total_budget m == 42000 /\
    Forall (fun e => remaining e == budget e /\ percentage e == 0)
      (values (category_metrics m)).
Proof.
  eexists. split; [reflexivity|]. split; [reflexivity|].
  split; [reflexivity|]. simpl.
  repeat (constructor; [split; reflexivity|]). constructor.
Qed.

(** The chart for bracket "20000-30000" after spending 18000. *)
Example chart_20000_18000 :
  exists fig recommended actual,
    create_savings_chart "20000-30000" 18000 = Some fig /\
    plotted fig = [[recommended; actual]] /\
    recommended == 4000 /\ actual == 2000.
Proof. do 3 eexists. repeat split; reflexivity. Qed.

(** An unknown bracket label is a [KeyError] in both functions. *)
Example unknown_label (format_number : Q -> string) (total_spent : Q) :
  create_savings_chart "60000+" total_spent = None /\
  get_savings_recommendations format_number "60000+" total_spent = None.
Proof. split; reflexivity. Qed.

(** C1 as worded fails on a row of this month whose category is not in
    the table: the row counts towards [total_spent] but towards no
    category. *)
Lemma unconfigured_row_breaks_identity :
  exists m,
    calculate_budget_metrics june5 june5
      [mkRow june5 "Travel" 100 "-"] groceries_only = Some m /\
    remaining_sum m == 5000 /\
    total_budget m - total_spent m == 4900 /\
    ~ remaining_sum m == total_budget m - total_spent m.
Proof.
  eexists. split; [reflexivity|]. split; [reflexivity|].
  split; [reflexivity|]. vm_compute. discriminate.
Qed.


Lemma recommended_savings_exact_witness :
  get "20000-30000" SALARY_RANGES
    = Some (mkRangeInfo 20000 (Some 30000) (20 # 100)) /\
  exists fig actual,
    create_savings_chart "20000-30000" 18000 = Some fig /\
    plotted fig = [[20000 * (20 # 100); actual]].
Proof.
  split; [reflexivity|].
  apply (recommended_savings_exact "20000-30000"
           (mkRangeInfo 20000 (Some 30000) (20 # 100)) 18000).
  reflexivity.
Defined.

Lemma actual_savings_clamped_witness :
  get "10000-20000" SALARY_RANGES
    = Some (mkRangeInfo 10000 (Some 20000) (15 # 100)) /\
  exists fig recommended actual,
    create_savings_chart "10000-20000" 12500 = Some fig /\
    plotted fig = [[recommended; actual]] /\
    actual = Qmax 0 (10000 - 12500) /\
    (10000 <= 12500 -> actual = 0).
Proof.
  split; [reflexivity|].
  apply (actual_savings_clamped "10000-20000"
           (mkRangeInfo 10000 (Some 20000) (15 # 100)) 12500).
  reflexivity.
Defined.

Lemma percentage_guarded_witness :
  wf two_caps /\
  exists m,
    calculate_budget_metrics june5 june5
      [mkRow june5 "Gifts" 250 "-"] two_caps = Some m /\
    forall c b, In (c, b) two_caps ->
      exists e,
        get c (category_metrics m) = Some e /\
        budget e = b /\
        (0 < b -> percentage e = spent e / b * 100) /\
        (b == 0 -> percentage e = 0).
Proof.
  assert (Hwf : wf two_caps) by wf_dict.
  split; [exact Hwf|].
  apply (percentage_guarded june5 june5 [mkRow june5 "Gifts" 250 "-"]
           two_caps Hwf).
Defined.

Lemma tips_by_tier_witness :
  get "20000-30000" SALARY_RANGES
    = Some (mkRangeInfo 20000 (Some 30000) (20 # 100)) /\
  get_savings_recommendations plain_number "20000-30000" 18000 =
    Some (warning_tip plain_number (20 # 100) :: mid_tips).
Proof.
  split; [reflexivity|].
  apply (tips_by_tier plain_number "20000-30000"
           (mkRangeInfo 20000 (Some 30000) (20 # 100)) 18000).
  reflexivity.
Defined.

Lemma append_other_month_witness :
  let r := mkRow may31 "Groceries" 700 "-" in
  (month (Date r) <> month june5 \/ year (Date r) <> year june5) /\
  calculate_budget_metrics june5 june5
    (concat_row [mkRow june5 "Groceries" 6000 "-"] r) BUDGET_CATEGORIES =
  calculate_budget_metrics june5 june5
    [mkRow june5 "Groceries" 6000 "-"] BUDGET_CATEGORIES.
Proof.
  cbv zeta.
  assert (H : month (Date (mkRow may31 "Groceries" 700 "-")) <> month june5
              \/ year (Date (mkRow may31 "Groceries" 700 "-")) <> year june5)
    by (left; discriminate).
  split; [exact H|].
  apply (append_other_month june5 june5 _ BUDGET_CATEGORIES _ H).
Defined.


Lemma lowest_bracket_witness :
  0 <= 250 /\
  exists fig recommended actual,
    create_savings_chart "0-10000" 250 = Some fig /\
    plotted fig = [[recommended; actual]] /\
    recommended == 0 /\ actual == 0.
Proof.
  assert (H : 0 <= 250) by (vm_compute; discriminate).
  split; [exact H|].
  destruct (lowest_bracket plain_number 250 H)
    as [fig [rec [act [recs [Hf [Hp [Hr [Ha _]]]]]]]].
  exists fig, rec, act. repeat split; assumption.
Defined.

Lemma tips_length_witness :
  get "50000+" SALARY_RANGES = Some (mkRangeInfo 50000 None (35 # 100)) /\
  exists fixed : list string,
    List.length fixed = 3%nat /\
    exists recs,
      get_savings_recommendations plain_number "50000+" 40000 = Some recs /\
      recs <> [].
Proof.
  split; [reflexivity|].
  destruct (tips_length "50000+" (mkRangeInfo 50000 None (35 # 100))
              eq_refl) as [fixed [Hlen Hall]].
  exists fixed. split; [exact Hlen|].
  destruct (Hall plain_number 40000) as [recs [Hrecs [Hne _]]].
  exists recs. split; assumption.
Defined.

(** On the configured table the rounding of the rates is not visible in
    the amounts: computed in binary64, each bracket's recommended savings
    and savings margin are exactly the rational values of the model. *)
Example table_exact_in_binary64 :
  Forall2
    (fun (entry : string * RangeInfo) (entry64 : string * (float * float)) =>
       fst entry = fst entry64 /\
       exactly (fst (snd entry64)) (min (snd entry)) /\
       exactly (recommended_binary64 (snd entry64))
         (min (snd entry) * savings_target (snd entry)) /\
       exactly (margin_binary64 (snd entry64)) (savings_margin (snd entry)))
    SALARY_RANGES SALARY_RANGES_binary64.
Proof.
  repeat (constructor;
          [repeat split; try reflexivity;
           (eexists; split; [vm_compute; reflexivity|reflexivity])|]).
  constructor.
Qed.

(** * Further properties of the budget snapshot *)

Section SnapshotFacts.

Context {V : Type}.

Lemma get_None_iff (k : string) (d : dict V) :
  get k d = None <-> ~ In k (keys d).
Proof.
  induction d as [|[k' v'] d IH]; simpl.
  - intuition.
  - destruct (String.eqb_spec k k') as [->|Hne].
    + split; [discriminate|]. intros H. exfalso. apply H. now left.
    + rewrite IH. intuition congruence.
Qed.

End SnapshotFacts.

(** Looking a category up among the stored entries. *)
Lemma get_category_entry (monthly_df : DataFrame) (cats : dict Q) (c : string) :
  get c (map (category_entry monthly_df) cats) =
  option_map (fun b => snd (category_entry monthly_df (c, b))) (get c cats).
Proof.
  induction cats as [|[c' b'] cats IH]; [reflexivity|].
  cbn [map category_entry fst get].
  destruct (String.eqb_spec c c') as [->|_]; [reflexivity|exact IH].
Qed.

Lemma category_entry_keys (monthly_df : DataFrame) (cats : dict Q) :
  keys (map (category_entry monthly_df) cats) = keys cats.
Proof. unfold keys. rewrite map_map. reflexivity. Qed.

Lemma category_entry_budgets (monthly_df : DataFrame) (cats : dict Q) :
  map budget (values (map (category_entry monthly_df) cats)) = values cats.
Proof. unfold values. rewrite !map_map. reflexivity. Qed.

Lemma category_entry_spents (monthly_df : DataFrame) (cats : dict Q) :
  map spent (values (map (category_entry monthly_df) cats)) =
  map (fun e => spent (snd (category_entry monthly_df e))) cats.
Proof. unfold values. rewrite !map_map. reflexivity. Qed.


(** The snapshot has one entry per configured category, in the order of
    the table, and no entry for any other category, whatever categories
    the rows carry. *)
Theorem snapshot_categories (now_month now_year : datetime)
    (df : DataFrame) (cats : dict Q) :
  wf cats ->
  exists m,
    calculate_budget_metrics now_month now_year df cats = Some m /\
    keys (category_metrics m) = keys cats /\
    wf (category_metrics m) /\
    forall c, ~ In c (keys cats) -> get c (category_metrics m) = None.
Proof.
  intros Hwf. rewrite calculate_budget_metrics_wf by exact Hwf. cbv zeta.
  eexists. split; [reflexivity|]. cbn [category_metrics].
  split; [apply category_entry_keys|].
  split; [unfold wf; rewrite category_entry_keys; exact Hwf|].
  intros c Hc. apply get_None_iff. now rewrite category_entry_keys.
Qed.

(** The snapshot is consistent with itself and with the table: the total
    budget is the sum of the entries' budgets, which are the table's
    values, and every entry's remaining amount is its budget less its
    spent amount.  The total budget does not depend on the rows or on the
    clock. *)
Theorem snapshot_budgets (now_month now_year : datetime)
    (df : DataFrame) (cats : dict Q) :
  wf cats ->
  exists m,
    calculate_budget_metrics now_month now_year df cats = Some m /\
    map budget (values (category_metrics m)) = values cats /\
    total_budget m = py_sum (map budget (values (category_metrics m))) /\
    Forall (fun e => remaining e = budget e - spent e)
      (values (category_metrics m)) /\
    forall now_month' now_year' df' m',
      calculate_budget_metrics now_month' now_year' df' cats = Some m' ->
      total_budget m' = total_budget m.
Proof.
  intros Hwf. rewrite calculate_budget_metrics_wf by exact Hwf. cbv zeta.
  eexists. split; [reflexivity|]. cbn [category_metrics total_budget].
  split; [apply category_entry_budgets|].
  split; [now rewrite category_entry_budgets|]. split.
  - unfold values. rewrite map_map. apply Forall_forall.
    intros e He. apply in_map_iff in He. destruct He as [[c b] [<- _]].
    reflexivity.
  - intros now_month' now_year' df' m'.
    rewrite calculate_budget_metrics_wf by exact Hwf. cbv zeta.
    intros [= <-]. reflexivity.
Qed.

Lemma percentage_value_over (s b : Q) :
  0 < b ->
  (100 < percentage_value s b <-> b < s) /\
  (percentage_value s b == 100 <-> s == b) /\
  (0 <= s -> 0 <= percentage_value s b).
Proof.
  intros Hb. unfold percentage_value.
  assert (E : Qgtb b 0 = true) by (apply Qgtb_true; exact Hb).
  rewrite E.
  assert (Hb' : ~ b == 0) by (intros H; rewrite H in Hb; discriminate Hb).
  assert (Hinv : 0 < / b) by (apply Qinv_lt_0_compat; exact Hb).
  assert (Hs : s / b * 100 - 100 == (s - b) * (100 * / b))
    by (field; exact Hb').
  assert (Hk : 0 < 100 * / b)
    by (apply Qmult_lt_0_compat; [reflexivity|exact Hinv]).
  split; [|split].
  - split; intros H.
    + assert (H' : 0 < (s - b) * (100 * / b)) by (rewrite <- Hs; lra).
      destruct (Qlt_le_dec b s) as [Hlt|Hle]; [exact Hlt|exfalso].
      assert ((s - b) * (100 * / b) <= 0 * (100 * / b))
        by (apply Qmult_le_compat_r; lra).
      lra.
    + assert (0 * (100 * / b) < (s - b) * (100 * / b))
        by (apply Qmult_lt_compat_r; lra).
      lra.
  - split; intros H.
    + assert (H' : (s - b) * (100 * / b) == 0) by (rewrite <- Hs; lra).
      apply Qmult_integral in H'. destruct H' as [H'|H']; lra.
    + assert (H' : (s - b) * (100 * / b) == 0) by (rewrite H; ring).
      lra.
  - intros H0. apply Qmult_le_0_compat; [|discriminate].
    unfold Qdiv. apply Qmult_le_0_compat; [exact H0|lra].
Qed.

(** For a category with a positive budget the percentage tells whether
    the budget is exceeded: it is above 100 exactly when the remaining
    amount is negative, and exactly 100 when nothing remains. *)
Theorem over_budget_percentage (now_month now_year : datetime)
    (df : DataFrame) (cats : dict Q) (c : string) (b : Q) :
  wf cats ->
  get c cats = Some b ->
  0 < b ->
  exists m e,
    calculate_budget_metrics now_month now_year df cats = Some m /\
    get c (category_metrics m) = Some e /\
    (100 < percentage e <-> remaining e < 0) /\
    (percentage e == 100 <-> remaining e == 0).
Proof.
  intros Hwf Hget Hb.
  rewrite calculate_budget_metrics_wf by exact Hwf. cbv zeta.
  do 2 eexists. split; [reflexivity|]. cbn [category_metrics].
  rewrite get_category_entry, Hget. cbn [option_map].
  split; [reflexivity|].
  cbn [category_entry snd fst percentage remaining].
  set (s := Amount_sum _).
  destruct (percentage_value_over s b Hb) as [H1 [H2 _]].
  split.
  - rewrite H1. split; intros H; lra.
  - rewrite H2. split; intros H; lra.
Qed.

(** When no row is dated in the month and year read from the clock, the
    snapshot is the one of the empty table: a new month starts from
    nothing spent, without any reset of the stored rows. *)
Theorem new_month_starts_empty (now_month now_year : datetime)
    (df : DataFrame) (cats : dict Q) :
  Forall (fun r => month (Date r) <> month now_month \/
                   year (Date r) <> year now_year) df ->
  calculate_budget_metrics now_month now_year df cats =
  calculate_budget_metrics now_month now_year [] cats.
Proof.
  intros Hall. unfold calculate_budget_metrics. cbv zeta.
  rewrite (filter_none _ df); [reflexivity|].
  intros r Hr. rewrite Forall_forall in Hall. specialize (Hall r Hr).
  unfold month_mask. apply andb_false_iff.
  destruct Hall as [H|H]; [left|right]; now apply Z.eqb_neq.
Qed.

(** The month and the year come from two separate clock readings.  When
    the year turns between them, so that the second reading shows an
    earlier month than the first, the function looks for rows of a month
    that lies ahead of the second reading: if no row is dated after the
    month of the second reading, every row is ignored, rows of the old
    and of the new month alike. *)
Theorem clock_read_across_new_year (now_month now_year : datetime)
    (df : DataFrame) (cats : dict Q) :
  (month now_year < month now_month)%Z ->
  Forall (fun r => (year (Date r) < year now_year)%Z \/
                   (year (Date r) = year now_year /\
                    (month (Date r) <= month now_year)%Z)) df ->
  calculate_budget_metrics now_month now_year df cats =
  calculate_budget_metrics now_month now_year [] cats.
Proof.
  intros Hturn Hall. unfold calculate_budget_metrics. cbv zeta.
  rewrite (filter_none _ df); [reflexivity|].
  intros r Hr. rewrite Forall_forall in Hall. specialize (Hall r Hr).
  unfold month_mask. apply andb_false_iff.
  destruct Hall as [H|[_ H]]; [right|left]; apply Z.eqb_neq; lia.
Qed.

(** * Further properties of the savings analysis *)

(** Every bracket of the table has a non-negative minimum income and a
    savings target strictly between 0 and 1. *)
Lemma SALARY_RANGES_rates (label : string) (info : RangeInfo) :
  get label SALARY_RANGES = Some info ->
  0 <= min info /\ 0 < savings_target info /\ savings_target info < 1.
Proof.
  intros Hget. apply get_Some_In in Hget. cbn [SALARY_RANGES In] in Hget.
  repeat (destruct Hget as [Hget|Hget];
          [injection Hget as _ <-; cbn [min savings_target];
           repeat split; (reflexivity || discriminate)|]).
  destruct Hget.
Qed.

(** Both savings functions look the bracket up first: they fail on exactly
    the labels that are not keys of the table, and on no other input. *)
Theorem savings_functions_raise (format_number : Q -> string)
    (label : string) (total_spent : Q) :
  (create_savings_chart label total_spent = None <->
   ~ In label (keys SALARY_RANGES)) /\
  (get_savings_recommendations format_number label total_spent = None <->
   ~ In label (keys SALARY_RANGES)).
Proof.
  rewrite <- (get_None_iff label SALARY_RANGES).
  unfold create_savings_chart, get_savings_recommendations.
  destruct (get label SALARY_RANGES) as [info|]; cbn [bind ret].
  - split; split; discriminate.
  - split; split; reflexivity.
Qed.

(** The two bars of the chart lie between 0 and the bracket's minimum
    income when nothing negative was spent, and the recommended savings
    and the spending margin the tips use add up to the minimum income. *)
Theorem chart_bars_bounded (label : string) (info : RangeInfo)
    (total_spent : Q) :
  get label SALARY_RANGES = Some info ->
  0 <= total_spent ->
  exists fig recommended actual,
    create_savings_chart label total_spent = Some fig /\
    plotted fig = [[recommended; actual]] /\
    0 <= recommended /\ recommended <= min info /\
    0 <= actual /\ actual <= min info /\
    recommended + savings_margin info == min info.
Proof.
  intros Hget Hspent.
  destruct (SALARY_RANGES_rates label info Hget) as [Hmin [Ht0 Ht1]].
  unfold create_savings_chart. rewrite Hget. cbn [bind ret].
  do 3 eexists. split; [reflexivity|]. split; [reflexivity|].
  assert (Hr0 : 0 <= min info * savings_target info)
    by (apply Qmult_le_0_compat; lra).
  assert (Hr1 : min info * savings_target info <= min info * 1)
    by (rewrite !(Qmult_comm (min info)); apply Qmult_le_compat_r; lra).
  split; [exact Hr0|]. split; [lra|].
  unfold py_max, savings_margin.
  destruct (Qgtb (min info - total_spent) 0) eqn:E.
  - apply Qgtb_true in E. repeat split; lra.
  - repeat split; lra.
Qed.

(** The chart and the tips agree.  For a bracket with a positive minimum
    income the warning is among the tips exactly when the chart's actual
    savings are below its recommended savings. *)
Theorem warning_iff_shortfall (format_number : Q -> string)
    (label : string) (info : RangeInfo) (total_spent : Q) :
  get label SALARY_RANGES = Some info ->
  0 < min info ->
  exists fig recommended actual recs,
    create_savings_chart label total_spent = Some fig /\
    plotted fig = [[recommended; actual]] /\
    get_savings_recommendations format_number label total_spent
      = Some recs /\
    (In (warning_tip format_number (savings_target info)) recs <->
     actual < recommended).
Proof.
  intros Hget Hmin.
  destruct (SALARY_RANGES_rates label info Hget) as [_ [Ht0 Ht1]].
  rewrite (recommendations_closed_form format_number label info total_spent Hget).
  unfold create_savings_chart. rewrite Hget. cbn [bind ret].
  do 4 eexists. split; [reflexivity|]. split; [reflexivity|].
  split; [reflexivity|].
  assert (Hr : 0 < min info * savings_target info)
    by (apply Qmult_lt_0_compat; assumption).
  assert (Hm : savings_margin info ==
               min info - min info * savings_target info)
    by (unfold savings_margin; ring).
  assert (Hact : py_max 0 (min info - total_spent) <
                 min info * savings_target info <->
                 savings_margin info < total_spent).
  { unfold py_max. destruct (Qgtb (min info - total_spent) 0) eqn:E.
    - apply Qgtb_true in E. split; intros H; lra.
    - apply Qgtb_false in E. split; intros H; lra. }
  rewrite Hact.
  destruct (Qgtb total_spent (savings_margin info)) eqn:E; cbn [app].
  - apply Qgtb_true in E. split; [intros _; exact E|intros _; now left].
  - apply Qgtb_false in E. split; [|intros H; lra].
    intros Hin. exfalso.
    exact (warning_not_fixed format_number (savings_target info)
             (tier_of_label label) Hin).
Qed.

(** * The page *)

Lemma py_max_mono (a b : Q) : a <= b -> py_max 0 a <= py_max 0 b.
Proof.
  intros Hab. unfold py_max.
  destruct (Qgtb a 0) eqn:Ea, (Qgtb b 0) eqn:Eb;
    rewrite ?Qgtb_true, ?Qgtb_false in *; lra.
Qed.

Lemma py_max_Qeq (a b : Q) : a == b -> py_max 0 a == py_max 0 b.
Proof.
  intros Hab. apply Qle_antisym; apply py_max_mono; lra.
Qed.

Lemma py_max_clamp (a : Q) :
  0 <= py_max 0 a /\ (0 <= a -> py_max 0 a == a) /\
  (a <= 0 -> py_max 0 a == 0).
Proof.
  unfold py_max. destruct (Qgtb a 0) eqn:E;
    rewrite ?Qgtb_true, ?Qgtb_false in E; repeat split; intros; lra.
Qed.

(** The page body once the table has rows: the metrics always come out,
    and the rest depends on the bracket lookup alone. *)
Lemma render_rows (format_number : Q -> string)
    (now_month now_year : datetime) (st : SessionState) :
  expenses_df st <> [] ->
  exists m,
    calculate_budget_metrics now_month now_year (expenses_df st)
      BUDGET_CATEGORIES = Some m /\
    render format_number now_month now_year st =
    (savings_fig <- create_savings_chart (salary_range st) (total_spent m) ;;
     recommendations <-
       get_savings_recommendations format_number (salary_range st)
         (total_spent m) ;;
     ret (Analysis
            (mkOverview (monthly_salary st) (total_spent m)
               (py_max 0 (monthly_salary st - total_spent m))
               (percentage_value
                  (py_max 0 (monthly_salary st - total_spent m))
                  (monthly_salary st)))
            m savings_fig recommendations)).
Proof.
  intros Hrows.
  destruct (calculate_budget_metrics_total now_month now_year
              (expenses_df st) BUDGET_CATEGORIES) as [m Hm].
  exists m. split; [exact Hm|]. unfold render.
  destruct (expenses_df st) as [|r df] eqn:E; [congruence|].
  rewrite Hm. cbn [bind]. rewrite percentage_of_total. reflexivity.
Qed.

Lemma render_Analysis (format_number : Q -> string)
    (now_month now_year : datetime) (st : SessionState)
    (ov : Overview) (m : Metrics) (fig : Figure) (recs : list string) :
  render format_number now_month now_year st = Some (Analysis ov m fig recs) ->
  calculate_budget_metrics now_month now_year (expenses_df st)
    BUDGET_CATEGORIES = Some m /\
  create_savings_chart (salary_range st) (total_spent m) = Some fig /\
  get_savings_recommendations format_number (salary_range st)
    (total_spent m) = Some recs /\
  ov = mkOverview (monthly_salary st) (total_spent m)
         (py_max 0 (monthly_salary st - total_spent m))
         (percentage_value (py_max 0 (monthly_salary st - total_spent m))
            (monthly_salary st)).
Proof.
  intros Hrender.
  assert (Hrows : expenses_df st <> []).
  { intros E. unfold render in Hrender. rewrite E in Hrender. discriminate. }
  destruct (render_rows format_number now_month now_year st Hrows)
    as [m' [Hm' Hr]].
  rewrite Hr in Hrender.
  destruct (create_savings_chart _ _) as [fig'|] eqn:Hfig; [|discriminate].
  destruct (get_savings_recommendations _ _ _) as [recs'|] eqn:Hrecs;
    [|discriminate].
  cbn [bind ret] in Hrender. injection Hrender as Hov Hm Hf Hr'. subst.
  repeat split; assumption.
Qed.

(** The figures of the overview row.  Savings are income less expenses,
    clamped at 0; the savings rate is 0 when the income is not positive
    (no division takes place) and lies between 0 and 100 when the
    expenses are not negative. *)
Theorem overview_figures (format_number : Q -> string)
    (now_month now_year : datetime) (st : SessionState)
    (ov : Overview) (m : Metrics) (fig : Figure) (recs : list string) :
  render format_number now_month now_year st = Some (Analysis ov m fig recs) ->
  total_income ov = monthly_salary st /\
  total_expenses ov = total_spent m /\
  0 <= total_savings ov /\
  (total_expenses ov <= total_income ov ->
   total_savings ov + total_expenses ov == total_income ov) /\
  (total_income ov <= total_expenses ov -> total_savings ov == 0) /\
  (total_income ov <= 0 -> savings_rate ov = 0) /\
  (0 <= total_expenses ov -> 0 <= savings_rate ov /\ savings_rate ov <= 100).
Proof.
  intros Hrender.
  destruct (render_Analysis _ _ _ _ _ _ _ _ Hrender) as [_ [_ [_ ->]]].
  cbn [total_income total_expenses total_savings savings_rate].
  set (salary := monthly_salary st). set (expenses := total_spent m).
  destruct (py_max_clamp (salary - expenses)) as [H0 [Hpos Hneg]].
  split; [reflexivity|]. split; [reflexivity|]. split; [exact H0|].
  split; [intros H; rewrite Hpos; lra|].
  split; [intros H; apply Hneg; lra|].
  split.
  - intros H. unfold percentage_value.
    assert (E : Qgtb salary 0 = false) by (apply Qgtb_false; exact H).
    now rewrite E.
  - intros Hexp.
    destruct (Qlt_le_dec 0 salary) as [Hs|Hs].
    + destruct (percentage_value_over (py_max 0 (salary - expenses)) salary Hs)
        as [Hover [_ Hnonneg]].
      split; [apply Hnonneg; exact H0|].
      apply Qnot_lt_le. intros H. apply Hover in H.
      rewrite Hpos in H by lra. lra.
    + unfold percentage_value.
      assert (E : Qgtb salary 0 = false) by (apply Qgtb_false; exact Hs).
      rewrite E. split; [apply Qle_refl|discriminate].
Qed.

(** The overview and the chart measure savings from different incomes:
    the overview from the salary entered, the chart from the bracket's
    minimum income.  As the salary input does not go below that minimum,
    the overview's savings are never less than the chart's actual
    savings, and the two are equal while the input holds its initial
    value. *)
Theorem overview_savings_at_least_chart (format_number : Q -> string)
    (now_month now_year : datetime) (st : SessionState) (inp : NumberInput)
    (ov : Overview) (m : Metrics) (fig : Figure) (recs : list string) :
  exact_salary_input (salary_range st) = Some inp ->
  min_value inp <= monthly_salary st ->
  render format_number now_month now_year st = Some (Analysis ov m fig recs) ->
  exists recommended actual,
    plotted fig = [[recommended; actual]] /\
    actual <= total_savings ov /\
    (monthly_salary st == value inp -> actual == total_savings ov).
Proof.
  intros Hinp Hmin Hrender.
  destruct (render_Analysis _ _ _ _ _ _ _ _ Hrender) as [_ [Hfig [_ ->]]].
  unfold exact_salary_input in Hinp. unfold create_savings_chart in Hfig.
  destruct (get (salary_range st) SALARY_RANGES) as [info|]; [|discriminate].
  cbn [bind ret] in Hinp, Hfig.
  injection Hinp as <-. injection Hfig as <-.
  cbn [min_value value] in *. cbn [total_savings].
  do 2 eexists. split; [reflexivity|]. split.
  - apply py_max_mono. lra.
  - intros E. apply py_max_Qeq. lra.
Qed.

(** * Sessions *)

Lemma rerun_rows (interactions : list Interaction) :
  forall st,
    expenses_df (fold_left rerun interactions st) =
    expenses_df st ++ map form_row (submitted interactions).
Proof.
  induction interactions as [|i interactions IH]; intros st;
    cbn [fold_left submitted flat_map map].
  - now rewrite app_nil_r.
  - rewrite IH. destruct i as [sel salary|f];
      cbn [rerun sidebar submit add_expense expenses_df concat_row app].
    + reflexivity.
    + unfold concat_row. rewrite <- app_assoc. reflexivity.
Qed.

Lemma str_or_nonempty (a : string) : str_or a "-" <> "".
Proof. destruct a; discriminate. Qed.

Lemma rerun_ok (st : SessionState) (i : Interaction) :
  offered i = true -> session_ok st -> session_ok (rerun st i).
Proof.
  intros Hoff [[info [Hget Hmin]] Hrows]. destruct i as [sel salary|f].
  - cbn [offered] in Hoff. unfold exact_salary_input in Hoff.
    split; [|exact Hrows].
    cbn [rerun sidebar salary_range monthly_salary].
    destruct (get sel SALARY_RANGES) as [info'|]; [|discriminate].
    cbn [bind ret] in Hoff. unfold accepts in Hoff. cbn [min_value] in Hoff.
    apply andb_true_iff in Hoff. destruct Hoff as [Hlow _].
    apply Qle_bool_iff in Hlow. exists info'. split; [reflexivity|exact Hlow].
  - cbn [offered] in Hoff. apply andb_true_iff in Hoff.
    destruct Hoff as [Hcat Hamount].
    apply str_in_In in Hcat. apply Qle_bool_iff in Hamount.
    split; [exists info; split; assumption|].
    cbn [rerun submit add_expense expenses_df]. unfold concat_row.
    apply Forall_app. split; [exact Hrows|].
    constructor; [|constructor].
    unfold form_row_ok, form_row. cbn [Category Amount Description].
    repeat split; [exact Hcat|exact Hamount|apply str_or_nonempty].
Qed.

Lemma session_ok_reached (interactions : list Interaction) :
  forallb offered interactions = true -> session_ok (session interactions).
Proof.
  unfold session.
  assert (H0 : session_ok initial_state).
  { split; [|constructor]. eexists. split; [reflexivity|apply Qle_refl]. }
  revert H0. generalize initial_state.
  induction interactions as [|i interactions IH]; intros st Hst Hoff;
    cbn [fold_left forallb] in *; [exact Hst|].
  apply andb_true_iff in Hoff. destruct Hoff as [Hi Hrest].
  apply IH; [apply rerun_ok; assumption|exact Hrest].
Qed.

(** The table of a session is append-only.  After any interactions it
    holds the rows of the forms submitted so far, in the order of
    submission; further interactions leave these rows in place and add
    the rows of the newly submitted forms behind them, and changes in the
    sidebar add nothing. *)
Theorem session_rows_append_only (before after : list Interaction) :
  expenses_df (session before) = map form_row (submitted before) /\
  expenses_df (session (before ++ after)) =
    expenses_df (session before) ++ map form_row (submitted after).
Proof.
  unfold session. split.
  - now rewrite rerun_rows.
  - now rewrite fold_left_app, rerun_rows.
Qed.

(** Every row of a session reached through the widgets carries a
    configured category, an amount of at least 0.01 and a description
    that is not empty, "-" standing in for a description left blank. *)
Theorem session_rows_valid (interactions : list Interaction) :
  forallb offered interactions = true ->
  Forall (fun r =>
            In (Category r) (keys BUDGET_CATEGORIES) /\
            (1 # 100) <= Amount r /\
            Description r <> "" /\
            (forall f, In f (submitted interactions) ->
               r = form_row f -> description f = "" -> Description r = "-"))
    (expenses_df (session interactions)).
Proof.
  intros Hoff. destruct (session_ok_reached interactions Hoff) as [_ Hrows].
  apply Forall_forall. intros r Hr.
  rewrite Forall_forall in Hrows. destruct (Hrows r Hr) as [Hc [Ha Hd]].
  repeat split; try assumption.
  intros f _ -> Hempty. unfold form_row. cbn [Description].
  now rewrite Hempty.
Qed.

(** * The category chart *)

Lemma compare_Lt_trans (a b c : string) :
  String.compare a b = Lt -> String.compare b c = Lt ->
  String.compare a c = Lt.
Proof.
  intros Hab Hbc.
  apply (proj1 (String_as_OT.cmp_lt a b)) in Hab.
  apply (proj1 (String_as_OT.cmp_lt b c)) in Hbc.
  apply (proj2 (String_as_OT.cmp_lt a c)).
  exact (String_as_OT.lt_trans _ _ _ Hab Hbc).
Qed.

Lemma compare_Gt_Lt (a b : string) :
  String.compare a b = Gt -> String.compare b a = Lt.
Proof.
  intros H. rewrite String.compare_antisym, H. reflexivity.
Qed.

Lemma compare_irrefl (a : string) : String.compare a a <> Lt.
Proof.
  assert (E : String.compare a a = Eq)
    by (apply (proj2 (String_as_OT.cmp_eq a a)); reflexivity).
  rewrite E. discriminate.
Qed.

Lemma insert_key_In (k x : string) (ks : list string) :
  In x (insert_key k ks) <-> x = k \/ In x ks.
Proof.
  induction ks as [|k' ks IH]; cbn [insert_key In].
  - intuition.
  - destruct (String.compare k k') eqn:E; cbn [In].
    + apply String.compare_eq_iff in E. subst k'. intuition.
    + intuition.
    + rewrite IH. intuition.
Qed.

Lemma insert_key_ascending (k : string) (ks : list string) :
  ascending ks -> ascending (insert_key k ks).
Proof.
  unfold ascending. induction ks as [|k' ks IH]; intros Hs; cbn [insert_key].
  - repeat constructor.
  - apply StronglySorted_inv in Hs. destruct Hs as [Hs Hall].
    destruct (String.compare k k') eqn:E.
    + constructor; assumption.
    + constructor; [constructor; assumption|].
      constructor; [exact E|].
      rewrite Forall_forall in *. intros x Hx.
      apply (compare_Lt_trans k k' x E). apply Hall, Hx.
    + constructor; [apply IH; exact Hs|].
      rewrite Forall_forall in *. intros x Hx.
      apply insert_key_In in Hx. destruct Hx as [->|Hx].
      * apply compare_Gt_Lt, E.
      * apply Hall, Hx.
Qed.

Lemma ascending_NoDup (ks : list string) : ascending ks -> NoDup ks.
Proof.
  unfold ascending. induction 1 as [|k ks _ IH Hall]; constructor; [|exact IH].
  intros Hin. rewrite Forall_forall in Hall.
  exact (compare_irrefl k (Hall k Hin)).
Qed.

Lemma group_keys_In (column : list string) (x : string) :
  In x (group_keys column) <-> In x column.
Proof.
  induction column as [|k column IH]; cbn [group_keys fold_right In].
  - reflexivity.
  - rewrite insert_key_In. fold (group_keys column). rewrite IH.
    intuition.
Qed.

Lemma group_keys_ascending (column : list string) :
  ascending (group_keys column).
Proof.
  induction column as [|k column IH]; cbn [group_keys fold_right].
  - constructor.
  - apply insert_key_ascending. exact IH.
Qed.

Lemma category_spending_keys (df : DataFrame) :
  keys (category_spending df) = group_keys (map Category df).
Proof.
  unfold category_spending, keys. rewrite map_map. apply map_id.
Qed.

(** The slices of the category chart.  There is one slice for every
    category that occurs in the table and for no other, the slices are in
    ascending order of their category, without repetition, and the value
    of a slice is the sum of the amounts of the rows of its category. *)
Theorem category_spending_slices (df : DataFrame) :
  ascending (keys (category_spending df)) /\
  wf (category_spending df) /\
  (forall c, In c (keys (category_spending df)) <->
             exists r, In r df /\ Category r = c) /\
  (forall c,
      get c (category_spending df) =
      if existsb (category_mask c) df
      then Some (Amount_sum (filter (category_mask c) df))
      else None).
Proof.
  assert (Hasc : ascending (keys (category_spending df))).
  { rewrite category_spending_keys. apply group_keys_ascending. }
  assert (Hin : forall c, In c (keys (category_spending df)) <->
                          exists r, In r df /\ Category r = c).
  { intros c. rewrite category_spending_keys, group_keys_In, in_map_iff.
    split; intros [r [H1 H2]]; exists r; tauto. }
  split; [exact Hasc|]. split; [apply ascending_NoDup, Hasc|].
  split; [exact Hin|].
  intros c. destruct (existsb (category_mask c) df) eqn:E.
  - apply get_In; [apply ascending_NoDup, Hasc|].
    unfold category_spending.
    apply (in_map (fun k => (k, Amount_sum (filter (category_mask k) df)))).
    apply group_keys_In. apply existsb_exists in E.
    destruct E as [r [Hr Hc]]. apply String.eqb_eq in Hc.
    apply in_map_iff. exists r. split; [exact Hc|exact Hr].
  - apply get_None_iff. rewrite Hin. intros [r [Hr Hc]].
    assert (existsb (category_mask c) df = true).
    { apply existsb_exists. exists r. split; [exact Hr|].
      apply String.eqb_eq. exact Hc. }
    congruence.
Qed.

(** * Concrete runs of the further properties *)

Lemma snapshot_categories_witness :
  wf BUDGET_CATEGORIES /\
  exists m,
    calculate_budget_metrics june5 june5 sample_df BUDGET_CATEGORIES
      = Some m /\
    keys (category_metrics m) = keys BUDGET_CATEGORIES /\
    get "Travel" (category_metrics m) = None.
Proof.
  assert (Hwf : wf BUDGET_CATEGORIES) by wf_dict.
  split; [exact Hwf|].
  destruct (snapshot_categories june5 june5 sample_df BUDGET_CATEGORIES Hwf)
    as [m [Hm [Hkeys [_ Hnone]]]].
  exists m. split; [exact Hm|]. split; [exact Hkeys|].
  apply Hnone. cbn. intuition discriminate.
Defined.

Lemma snapshot_budgets_witness :
  wf BUDGET_CATEGORIES /\
  exists m,
    calculate_budget_metrics june5 june5 sample_df BUDGET_CATEGORIES
      = Some m /\
    total_budget m = py_sum (map budget (values (category_metrics m))).
Proof.
  assert (Hwf : wf BUDGET_CATEGORIES) by wf_dict.
  split; [exact Hwf|].
  destruct (snapshot_budgets june5 june5 sample_df BUDGET_CATEGORIES Hwf)
    as [m [Hm [_ [Htotal _]]]].
  exists m. split; assumption.
Defined.

Lemma over_budget_percentage_witness :
  wf BUDGET_CATEGORIES /\
  get "Groceries" BUDGET_CATEGORIES = Some 5000 /\
  0 < 5000 /\
  exists m e,
    calculate_budget_metrics june5 june5 sample_df BUDGET_CATEGORIES
      = Some m /\
    get "Groceries" (category_metrics m) = Some e /\
    (100 < percentage e <-> remaining e < 0).
Proof.
  assert (Hwf : wf BUDGET_CATEGORIES) by wf_dict.
  split; [exact Hwf|]. split; [reflexivity|]. split; [reflexivity|].
  destruct (over_budget_percentage june5 june5 sample_df BUDGET_CATEGORIES
              "Groceries" 5000 Hwf eq_refl eq_refl)
    as [m [e [Hm [He [Hover _]]]]].
  exists m, e. repeat split; try assumption; apply Hover.
Defined.

Lemma new_month_starts_empty_witness :
  let july1 := mkDatetime 2024 7 1 in
  Forall (fun r => month (Date r) <> month july1 \/
                   year (Date r) <> year july1) sample_df /\
  calculate_budget_metrics july1 july1 sample_df BUDGET_CATEGORIES =
  calculate_budget_metrics july1 july1 [] BUDGET_CATEGORIES.
Proof.
  cbv zeta.
  assert (H : Forall (fun r => month (Date r) <> month (mkDatetime 2024 7 1)
                            \/ year (Date r) <> year (mkDatetime 2024 7 1))
                sample_df)
    by (unfold sample_df;
        repeat (apply Forall_cons; [left; discriminate|]); apply Forall_nil).
  split; [exact H|].
  apply (new_month_starts_empty _ _ sample_df BUDGET_CATEGORIES H).
Defined.

Lemma clock_read_across_new_year_witness :
  let dec31 := mkDatetime 2024 12 31 in
  let jan1 := mkDatetime 2025 1 1 in
  let df := [mkRow dec31 "Groceries" 900 "-"; mkRow jan1 "Health" 400 "-"] in
  (month jan1 < month dec31)%Z /\
  Forall (fun r => (year (Date r) < year jan1)%Z \/
                   (year (Date r) = year jan1 /\
                    (month (Date r) <= month jan1)%Z)) df /\
  calculate_budget_metrics dec31 jan1 df BUDGET_CATEGORIES =
  calculate_budget_metrics dec31 jan1 [] BUDGET_CATEGORIES.
Proof.
  cbv zeta.
  assert (Hturn : (month (mkDatetime 2025 1 1)
                   < month (mkDatetime 2024 12 31))%Z) by reflexivity.
  assert (Hall : Forall
            (fun r => (year (Date r) < year (mkDatetime 2025 1 1))%Z \/
                      (year (Date r) = year (mkDatetime 2025 1 1) /\
                       (month (Date r) <= month (mkDatetime 2025 1 1))%Z))
            [mkRow (mkDatetime 2024 12 31) "Groceries" 900 "-";
             mkRow (mkDatetime 2025 1 1) "Health" 400 "-"]).
  { constructor; [left; reflexivity|].
    constructor; [right; split; [reflexivity|discriminate]|constructor]. }
  split; [exact Hturn|]. split; [exact Hall|].
  apply (clock_read_across_new_year _ _ _ BUDGET_CATEGORIES Hturn Hall).
Defined.

Lemma chart_bars_bounded_witness :
  get "30000-40000" SALARY_RANGES
    = Some (mkRangeInfo 30000 (Some 40000) (25 # 100)) /\
  0 <= 31000 /\
  exists fig recommended actual,
    create_savings_chart "30000-40000" 31000 = Some fig /\
    plotted fig = [[recommended; actual]] /\
    0 <= actual /\ actual <= 30000.
Proof.
  assert (H : 0 <= 31000) by (vm_compute; discriminate).
  split; [reflexivity|]. split; [exact H|].
  destruct (chart_bars_bounded "30000-40000"
              (mkRangeInfo 30000 (Some 40000) (25 # 100)) 31000 eq_refl H)
    as [fig [rec [act [Hf [Hp [_ [_ [H0 [H1 _]]]]]]]]].
  exists fig, rec, act. repeat split; assumption.
Defined.

Lemma warning_iff_shortfall_witness :
  get "40000-50000" SALARY_RANGES
    = Some (mkRangeInfo 40000 (Some 50000) (30 # 100)) /\
  0 < 40000 /\
  exists fig recommended actual recs,
    create_savings_chart "40000-50000" 30000 = Some fig /\
    plotted fig = [[recommended; actual]] /\
    get_savings_recommendations plain_number "40000-50000" 30000
      = Some recs /\
    (In (warning_tip plain_number (30 # 100)) recs <-> actual < recommended).
Proof.
  split; [reflexivity|]. split; [reflexivity|].
  apply (warning_iff_shortfall plain_number "40000-50000"
           (mkRangeInfo 40000 (Some 50000) (30 # 100)) 30000 eq_refl eq_refl).
Defined.

Lemma overview_figures_witness :
  exists ov m fig recs,
    render plain_number june5 june5 (session sample_interactions)
      = Some (Analysis ov m fig recs) /\
    total_income ov = 25000 /\
    0 <= total_savings ov /\
    (0 <= total_expenses ov -> 0 <= savings_rate ov /\ savings_rate ov <= 100).
Proof.
  do 4 eexists. split; [reflexivity|].
  destruct (overview_figures plain_number june5 june5
              (session sample_interactions) _ _ _ _ eq_refl)
    as [Hinc [_ [Hsav [_ [_ [_ Hrate]]]]]].
  split; [exact Hinc|]. split; [exact Hsav|exact Hrate].
Defined.

Lemma overview_savings_at_least_chart_witness :
  exists inp ov m fig recs,
    exact_salary_input (salary_range (session sample_interactions))
      = Some inp /\
    min_value inp <= monthly_salary (session sample_interactions) /\
    render plain_number june5 june5 (session sample_interactions)
      = Some (Analysis ov m fig recs) /\
    exists recommended actual,
      plotted fig = [[recommended; actual]] /\
      actual <= total_savings ov.
Proof.
  do 5 eexists.
  assert (Hinp : exact_salary_input
                   (salary_range (session sample_interactions)) =
                 Some (mkNumberInput 20000 (Some 30000) 20000))
    by reflexivity.
  assert (Hmin : min_value (mkNumberInput 20000 (Some 30000) 20000) <=
                 monthly_salary (session sample_interactions))
    by (vm_compute; discriminate).
  split; [exact Hinp|]. split; [exact Hmin|]. split; [reflexivity|].
  destruct (overview_savings_at_least_chart plain_number june5 june5
              (session sample_interactions) _ _ _ _ _ Hinp Hmin eq_refl)
    as [rec [act [Hp [Hle _]]]].
  exists rec, act. split; assumption.
Defined.

Lemma session_rows_valid_witness :
  forallb offered sample_interactions = true /\
  Forall (fun r => Description r <> "")
    (expenses_df (session sample_interactions)).
Proof.
  assert (Hoff : forallb offered sample_interactions = true) by reflexivity.
  split; [exact Hoff|].
  pose proof (session_rows_valid sample_interactions Hoff) as H.
  rewrite Forall_forall in *. intros r Hr.
  destruct (H r Hr) as [_ [_ [Hd _]]]. exact Hd.
Defined.

(** The slices of the sample table: three categories, in ascending order,
    the rows of May and June alike. *)
Example category_spending_sample :
  category_spending sample_df =
  [ ("Groceries", Amount_sum [mkRow june5 "Groceries" 6000 "-"]);
    ("Travel", Amount_sum [mkRow may31 "Travel" 100 "-"]);
    ("Utilities", Amount_sum [mkRow june30 "Utilities" 250 "power"]) ].
Proof. reflexivity. Qed.

(** The rows of the sample session: a blank description became "-". *)
Example session_sample_rows :
  expenses_df (session sample_interactions) =
  [ mkRow may31 "Rent/Mortgage" 15000 "-";
    mkRow june5 "Groceries" 1200 "market" ] /\
  salary_range (session sample_interactions) = "20000-30000" /\
  monthly_salary (session sample_interactions) = 25000.
Proof. repeat split; reflexivity. Qed.


(** * Rounded arithmetic *)

Lemma round64_proper (a b : Q) : a == b -> round64 a = round64 b.
Proof. intros H. unfold round64. now rewrite (Qred_complete a b H). Qed.

Lemma Qred_inject_Z (z : Z) : Qred (inject_Z z) = inject_Z z.
Proof.
  unfold Qred, inject_Z.
  pose proof (Z.ggcd_gcd z 1) as Hg.
  pose proof (Z.ggcd_correct_divisors z 1) as Hd.
  destruct (Z.ggcd z 1) as [g [zz dd]]. cbn [fst snd] in *.
  rewrite Z.gcd_1_r in Hg. subst g. destruct Hd as [Hz H1].
  rewrite Z.mul_1_l in Hz, H1. subst zz dd. reflexivity.
Qed.

Lemma round_half_even_1 (n : Z) : round_half_even n 1 = n.
Proof.
  unfold round_half_even.
  pose proof (Z.div_eucl_eq n 1) as H.
  pose proof (Z.mod_pos_bound n 1) as Hb.
  unfold Z.modulo in Hb.
  destruct (Z.div_eucl n 1) as [k r].
  assert (r = 0)%Z by lia. subst r.
  assert (k = n) by lia. subst k. reflexivity.
Qed.

(** Binary64 holds every whole number below [2 ^ 53] exactly. *)
Lemma round64_whole (z : Z) :
  (Z.abs z < 2 ^ 53)%Z -> round64 (inject_Z z) == inject_Z z.
Proof.
  intros Hz. unfold round64. rewrite Qred_inject_Z. cbn [Qnum Qden inject_Z].
  destruct (Z.eqb_spec z 0) as [->|Hne]; [reflexivity|].
  set (a := Z.abs z). assert (Ha : (0 < a)%Z) by (unfold a; lia).
  unfold exponent64. change (Z.log2 1) with 0%Z.
  pose proof (Z.log2_spec a Ha) as [Hlo Hhi].
  assert (Hl : (0 <= Z.log2 a)%Z) by apply Z.log2_nonneg.
  assert (Hl52 : (Z.log2 a <= 52)%Z).
  { apply Z.lt_succ_r. apply (Z.pow_lt_mono_r_iff 2); try lia. }
  set (e0 := (Z.log2 a - 0 - 52)%Z).
  assert (He0 : (e0 <= 0)%Z) by (unfold e0; lia).
  assert (Hsc : scaled a 1 e0 = (a * 2 ^ (- e0), 1)%Z).
  { unfold scaled. destruct (Z.leb_spec 0 e0) as [H|H]; [|reflexivity].
    assert (E : (e0 = 0)%Z) by lia. rewrite E. cbn. f_equal; lia. }
  rewrite Hsc.
  assert (Hge : (2 ^ 52 <= a * 2 ^ (- e0))%Z).
  { replace 52%Z with (Z.log2 a + - e0)%Z by (unfold e0; lia).
    rewrite Z.pow_add_r by lia.
    apply Z.mul_le_mono_nonneg_r; [apply Z.pow_nonneg; lia|exact Hlo]. }
  destruct (Z.ltb_spec (a * 2 ^ (- e0)) (1 * 2 ^ 52)) as [H|_]; [lia|].
  rewrite Hsc. rewrite round_half_even_1.
  assert (Hv : (Z.sgn z * (a * 2 ^ (- e0)) = z * 2 ^ (- e0))%Z).
  { unfold a. rewrite Z.mul_assoc. f_equal. rewrite Z.mul_comm.
    apply Z.abs_sgn. }
  rewrite Hv.
  destruct (Z.leb_spec 0 e0) as [H|H].
  - assert (E : (e0 = 0)%Z) by lia. rewrite E. unfold Qeq. cbn. lia.
  - unfold Qeq. cbn [Qnum Qden inject_Z].
    rewrite Z2Pos.id by (apply Z.pow_pos_nonneg; lia). lia.
Qed.

Lemma rounding_round64 : rounding round64.
Proof.
  constructor.
  - intros a b H. now rewrite (round64_proper a b H).
  - exact round64_whole.
Qed.

Lemma whole_iff (q : Q) : whole q <-> exists z, q == inject_Z z.
Proof.
  unfold whole. split.
  - intros H. exists (Qfloor q). now symmetry.
  - intros [z Hz]. rewrite (Qfloor_comp q (inject_Z z) Hz), Qfloor_Z.
    now symmetry.
Qed.

Lemma whole_plus (a b : Q) : whole a -> whole b -> whole (a + b).
Proof.
  rewrite !whole_iff. intros [x Hx] [y Hy]. exists (x + y)%Z.
  rewrite Hx, Hy, inject_Z_plus. reflexivity.
Qed.

Lemma whole_minus (a b : Q) : whole a -> whole b -> whole (a - b).
Proof.
  rewrite !whole_iff. intros [x Hx] [y Hy]. exists (x - y)%Z.
  rewrite Hx, Hy. unfold Z.sub, Qminus.
  rewrite inject_Z_plus, inject_Z_opp. reflexivity.
Qed.

Lemma whole_0 : whole 0.
Proof. apply whole_iff. exists 0%Z. reflexivity. Qed.

Lemma whole_Qeq (a b : Q) : a == b -> whole a -> whole b.
Proof.
  rewrite !whole_iff. intros Hab [z Hz]. exists z. now rewrite <- Hab.
Qed.

Section RoundedFacts.

Variable rnd : Q -> Q.
Hypothesis Hrnd : rounding rnd.

Lemma rnd_exact (q : Q) :
  whole q -> Qabs q < inject_Z (2 ^ 53) -> rnd q == q.
Proof.
  intros Hw Hq. apply whole_iff in Hw. destruct Hw as [z Hz].
  rewrite (rnd_proper rnd Hrnd q (inject_Z z) Hz), Hz.
  apply (rnd_whole rnd Hrnd). rewrite Zlt_Qlt.
  rewrite Hz in Hq. unfold Qabs, inject_Z in Hq. cbn in Hq. exact Hq.
Qed.

End RoundedFacts.

Lemma magnitude_cons (x : Q) (xs : list Q) :
  magnitude (x :: xs) == Qabs x + magnitude xs.
Proof. unfold magnitude. cbn [map]. apply py_sum_cons. Qed.

Lemma magnitude_nonneg (xs : list Q) : 0 <= magnitude xs.
Proof.
  induction xs as [|x xs IH]; [apply Qle_refl|].
  rewrite magnitude_cons. pose proof (Qabs_nonneg x). lra.
Qed.

Lemma magnitude_In (x : Q) (xs : list Q) : In x xs -> Qabs x <= magnitude xs.
Proof.
  induction xs as [|y xs IH]; [easy|]. rewrite magnitude_cons.
  pose proof (Qabs_nonneg y) as Hy. pose proof (magnitude_nonneg xs) as Hm.
  intros [->|Hin]; [lra|]. specialize (IH Hin). lra.
Qed.

Lemma magnitude_filter_le (f : Row -> bool) (df : DataFrame) :
  magnitude (map Amount (filter f df)) <= magnitude (map Amount df).
Proof.
  induction df as [|r df IH]; [apply Qle_refl|].
  cbn [filter map]. pose proof (Qabs_nonneg (Amount r)).
  destruct (f r); cbn [map]; rewrite ?magnitude_cons; lra.
Qed.

Lemma Qabs_py_sum (xs : list Q) : Qabs (py_sum xs) <= magnitude xs.
Proof.
  induction xs as [|x xs IH]; [apply Qle_refl|].
  rewrite py_sum_cons, magnitude_cons.
  pose proof (Qabs_triangle x (py_sum xs)). lra.
Qed.

Lemma filter_abs_row (f : Row -> bool) (df : DataFrame) :
  (forall r, f (abs_row r) = f r) ->
  filter f (map abs_row df) = map abs_row (filter f df).
Proof.
  intros Hf. induction df as [|r df IH]; [reflexivity|].
  cbn [map filter]. rewrite Hf. destruct (f r); cbn [map]; now rewrite IH.
Qed.

Lemma Amount_sum_abs_row (df : DataFrame) :
  Amount_sum (map abs_row df) = magnitude (map Amount df).
Proof. unfold Amount_sum, magnitude. now rewrite !map_map. Qed.

(** The magnitudes of the categories' rows add up to the magnitude of the
    rows of configured categories. *)
Lemma category_magnitude_sum (cats : dict Q) (df : DataFrame) :
  wf cats ->
  py_sum (map (fun e => magnitude
                          (map Amount (filter (category_mask (fst e)) df)))
            cats) <=
  magnitude (map Amount df).
Proof.
  intros Hwf.
  pose proof (category_spent_sum cats (map abs_row df) Hwf) as H.
  cbn [category_entry snd spent] in H.
  assert (E : map (fun e : string * Q =>
                     Amount_sum
                       (filter (category_mask (fst e)) (map abs_row df)))
                cats =
              map (fun e : string * Q =>
                     magnitude
                       (map Amount (filter (category_mask (fst e)) df)))
                cats).
  { apply map_ext. intros e.
    rewrite filter_abs_row by reflexivity. apply Amount_sum_abs_row. }
  rewrite E in H. rewrite H.
  rewrite filter_abs_row by reflexivity. rewrite Amount_sum_abs_row.
  apply magnitude_filter_le.
Qed.

Section RoundedSums.

Variable rnd : Q -> Q.
Hypothesis Hrnd : rounding rnd.

Lemma fold_fl_add_proper (xs : list Q) :
  forall a b, a == b ->
    fold_left (fl_add rnd) xs a == fold_left (fl_add rnd) xs b.
Proof.
  induction xs as [|x xs IH]; intros a b Hab; cbn [fold_left];
    [exact Hab|].
  apply IH. unfold fl_add. apply (rnd_proper rnd Hrnd). now rewrite Hab.
Qed.

Lemma fold_fl_add_Forall2 (xs ys : list Q) :
  Forall2 Qeq xs ys ->
  forall a b, a == b ->
    fold_left (fl_add rnd) xs a == fold_left (fl_add rnd) ys b.
Proof.
  induction 1 as [|x y xs ys Hxy _ IH]; intros a b Hab; cbn [fold_left];
    [exact Hab|].
  apply IH. unfold fl_add. apply (rnd_proper rnd Hrnd). now rewrite Hab, Hxy.
Qed.

(** No step of a sum of whole numbers rounds as long as the magnitudes
    stay below [2 ^ 53]. *)
Lemma fold_fl_add_exact (xs : list Q) :
  forall acc,
    (forall x, In x xs -> whole x) ->
    whole acc ->
    Qabs acc + magnitude xs < inject_Z (2 ^ 53) ->
    fold_left (fl_add rnd) xs acc == fold_left Qplus xs acc /\
    whole (fold_left Qplus xs acc).
Proof.
  induction xs as [|x xs IH]; intros acc Hxs Hacc Hb; cbn [fold_left].
  - split; [reflexivity|exact Hacc].
  - rewrite magnitude_cons in Hb.
    pose proof (magnitude_nonneg xs) as Hm.
    pose proof (Qabs_triangle acc x) as Ht.
    assert (Hx : whole x) by (apply Hxs; now left).
    assert (E : fl_add rnd acc x == acc + x).
    { unfold fl_add. apply (rnd_exact rnd Hrnd);
        [apply whole_plus; assumption|lra]. }
    rewrite (fold_fl_add_proper xs _ _ E).
    apply IH; [intros y Hy; apply Hxs; now right
              |apply whole_plus; assumption|lra].
Qed.

Lemma fl_sum_exact (xs : list Q) :
  (forall x, In x xs -> whole x) ->
  magnitude xs < inject_Z (2 ^ 53) ->
  fl_sum rnd xs == py_sum xs /\ whole (py_sum xs).
Proof.
  intros Hxs Hb. unfold fl_sum, py_sum.
  apply fold_fl_add_exact; [exact Hxs|exact whole_0|].
  change (Qabs 0) with 0. lra.
Qed.

Lemma fl_percentage_of_total (spent budget : Q) :
  fl_percentage_of rnd spent budget =
  Some (fl_percentage_value rnd spent budget).
Proof.
  unfold fl_percentage_of, fl_percentage_value, fl_div.
  destruct (Qgtb budget 0) eqn:E; [|reflexivity].
  apply Qgtb_true in E.
  destruct (Qeq_bool budget 0) eqn:E0; [|reflexivity].
  apply Qeq_bool_eq in E0. rewrite E0 in E. now apply Qlt_irrefl in E.
Qed.

Lemma fl_category_step_entry (monthly_df : DataFrame)
    (acc : dict CategoryMetric) (item : string * Q) :
  fl_category_step rnd monthly_df (Some acc) item =
  Some (set (fst item) (snd (fl_category_entry rnd monthly_df item)) acc).
Proof.
  destruct item as [c b]. unfold fl_category_step. cbn [bind].
  now rewrite fl_percentage_of_total.
Qed.

Lemma fl_category_loop_wf (monthly_df : DataFrame) (cats : dict Q) :
  forall acc : dict CategoryMetric,
    wf cats ->
    (forall k, In k (keys cats) -> ~ In k (keys acc)) ->
    fold_left (fl_category_step rnd monthly_df) cats (Some acc) =
    Some (acc ++ map (fl_category_entry rnd monthly_df) cats).
Proof.
  unfold wf. induction cats as [|[c b] cats IH]; intros acc Hnd Hdisj;
    cbn [fold_left map].
  - now rewrite app_nil_r.
  - inversion Hnd as [|? ? Hc Hnd']; subst.
    rewrite fl_category_step_entry. cbn [fst snd fl_category_entry].
    rewrite set_fresh by (apply Hdisj; now left).
    rewrite IH; [now rewrite <- app_assoc|exact Hnd'|].
    intros k Hk. unfold keys. rewrite map_app. cbn [map fst].
    intros Hin. apply in_app_or in Hin. destruct Hin as [Hin|[<-|[]]].
    + apply (Hdisj k); [now right|exact Hin].
    + apply Hc. exact Hk.
Qed.

Lemma calculate_budget_metrics_rounded_wf (now_month now_year : datetime)
    (df : DataFrame) (cats : dict Q) :
  wf cats ->
  let monthly_df := filter (month_mask (month now_month) (year now_year)) df in
  calculate_budget_metrics_rounded rnd now_month now_year df cats =
  Some (mkMetrics (fl_sum rnd (values cats)) (fl_Amount_sum rnd monthly_df)
          (map (fl_category_entry rnd monthly_df) cats)).
Proof.
  intros Hwf monthly_df. unfold calculate_budget_metrics_rounded, items.
  fold monthly_df.
  rewrite fl_category_loop_wf; [reflexivity|exact Hwf|].
  intros k _ [].
Qed.

End RoundedSums.

Lemma Forall2_Qeq_map {A} (f g : A -> Q) (l : list A) :
  (forall x, In x l -> f x == g x) -> Forall2 Qeq (map f l) (map g l).
Proof.
  induction l as [|x l IH]; intros H; cbn [map]; constructor.
  - apply H. now left.
  - apply IH. intros y Hy. apply H. now right.
Qed.

Lemma remaining_magnitude (cats : dict Q) (df : DataFrame) :
  magnitude (map remaining (values (map (category_entry df) cats))) <=
  magnitude (values cats) +
  py_sum (map (fun e => magnitude
                          (map Amount (filter (category_mask (fst e)) df)))
            cats).
Proof.
  unfold values. induction cats as [|[c b] cats IH].
  - apply Qle_refl.
  - cbn [map]. rewrite !magnitude_cons, py_sum_cons.
    cbn [category_entry snd fst remaining].
    set (s := Amount_sum (filter (category_mask c) df)).
    assert (Hs : Qabs s <= magnitude
                             (map Amount (filter (category_mask c) df)))
      by apply Qabs_py_sum.
    pose proof (Qabs_triangle b (- s)) as Ht. rewrite Qabs_opp in Ht.
    change (b + - s) with (b - s) in Ht. lra.
Qed.

(** C1, as the program computes it.  When every row of this month carries
    a configured category and the budgets and amounts are whole numbers
    whose magnitudes add up to less than [2 ^ 53], no sum or difference is
    rounded, and the configured categories' remaining amounts add up to
    the total budget less [total_spent]. *)
Theorem remaining_sum_whole_amounts (rnd : Q -> Q)
    (now_month now_year : datetime) (df : DataFrame) (cats : dict Q) :
  rounding rnd ->
  wf cats ->
  (forall c b, In (c, b) cats -> whole b) ->
  (forall r, In r df -> whole (Amount r)) ->
  magnitude (values cats) + magnitude (map Amount df) < inject_Z (2 ^ 53) ->
  (forall r, In r df ->
     month_mask (month now_month) (year now_year) r = true ->
     In (Category r) (keys cats)) ->
  exists m,
    calculate_budget_metrics_rounded rnd now_month now_year df cats
      = Some m /\
    total_spent m ==
      Amount_sum (filter (month_mask (month now_month) (year now_year)) df) /\
    remaining_sum_rounded rnd m == total_budget m - total_spent m /\
    fl_sub rnd (total_budget m) (total_spent m) ==
      total_budget m - total_spent m.
Proof.
  intros Hrnd Hwf Hbudgets Hamounts Hbound Hconfigured.
  rewrite (calculate_budget_metrics_rounded_wf rnd) by exact Hwf.
  cbv zeta. set (M := filter _ df).
  eexists. split; [reflexivity|].
  unfold remaining_sum_rounded. cbn [total_budget total_spent category_metrics].
  pose proof (magnitude_nonneg (values cats)) as HB0.
  pose proof (magnitude_nonneg (map Amount df)) as HA0.
  pose proof (magnitude_filter_le
                (month_mask (month now_month) (year now_year)) df) as HM.
  fold M in HM.
  assert (HwB : forall x, In x (values cats) -> whole x).
  { intros x Hx. unfold values in Hx. apply in_map_iff in Hx.
    destruct Hx as [[c b] [<- Hin]]. exact (Hbudgets c b Hin). }
  assert (HwM : forall f x, In x (map Amount (filter f M)) -> whole x).
  { intros f x Hx. apply in_map_iff in Hx. destruct Hx as [r [<- Hr]].
    apply filter_In in Hr. destruct Hr as [Hr _].
    apply filter_In in Hr. apply Hamounts, Hr. }
  (* the two totals *)
  destruct (fl_sum_exact rnd Hrnd (values cats) HwB) as [EB WB]; [lra|].
  assert (HwM' : forall x, In x (map Amount M) -> whole x).
  { intros x Hx. apply in_map_iff in Hx. destruct Hx as [r [<- Hr]].
    apply filter_In in Hr. apply Hamounts, Hr. }
  destruct (fl_sum_exact rnd Hrnd (map Amount M) HwM') as [EM WM]; [lra|].
  fold (fl_Amount_sum rnd M) in EM. fold (Amount_sum M) in EM, WM.
  (* the spent amount of one category *)
  assert (Hspent : forall c,
             fl_Amount_sum rnd (filter (category_mask c) M) ==
             Amount_sum (filter (category_mask c) M) /\
             whole (Amount_sum (filter (category_mask c) M))).
  { intros c. apply (fl_sum_exact rnd Hrnd); [apply HwM|].
    pose proof (magnitude_filter_le (category_mask c) M). lra. }
  (* the remaining amount of one category *)
  assert (Hrem : forall e, In e cats ->
             remaining (snd (fl_category_entry rnd M e)) ==
             remaining (snd (category_entry M e)) /\
             whole (remaining (snd (category_entry M e)))).
  { intros [c b] Hin. cbn [fl_category_entry category_entry snd fst remaining].
    destruct (Hspent c) as [Es Ws].
    assert (Wb : whole b) by exact (Hbudgets c b Hin).
    assert (Wd : whole (b - Amount_sum (filter (category_mask c) M)))
      by (apply whole_minus; assumption).
    split; [|exact Wd].
    unfold fl_sub.
    rewrite (rnd_proper rnd Hrnd _
               (b - Amount_sum (filter (category_mask c) M)))
      by (now rewrite Es).
    apply (rnd_exact rnd Hrnd); [exact Wd|].
    assert (Hb : Qabs b <= magnitude (values cats)).
    { apply magnitude_In. unfold values.
      apply (in_map snd) in Hin. exact Hin. }
    pose proof (Qabs_py_sum (map Amount (filter (category_mask c) M))) as Hs.
    fold (Amount_sum (filter (category_mask c) M)) in Hs.
    pose proof (magnitude_filter_le (category_mask c) M) as Hf.
    pose proof (Qabs_triangle b
                  (- Amount_sum (filter (category_mask c) M))) as Ht.
    rewrite Qabs_opp in Ht.
    change (b + - Amount_sum (filter (category_mask c) M))
      with (b - Amount_sum (filter (category_mask c) M)) in Ht.
    lra. }
  (* the sum of the remaining amounts *)
  set (R := map remaining (values (map (category_entry M) cats))).
  assert (HRw : forall x, In x R -> whole x).
  { intros x Hx. unfold R, values in Hx. rewrite !map_map in Hx.
    apply in_map_iff in Hx. destruct Hx as [e [<- He]].
    apply (Hrem e He). }
  assert (HRm : magnitude R < inject_Z (2 ^ 53)).
  { pose proof (remaining_magnitude cats M) as H1. fold R in H1.
    pose proof (category_magnitude_sum cats M Hwf) as H2. lra. }
  destruct (fl_sum_exact rnd Hrnd R HRw HRm) as [ER _].
  assert (EF : fl_sum rnd
                 (map remaining (values (map (fl_category_entry rnd M) cats)))
               == fl_sum rnd R).
  { unfold fl_sum, R, values. rewrite !map_map.
    apply (fold_fl_add_Forall2 rnd Hrnd); [|reflexivity].
    apply Forall2_Qeq_map. intros e He. apply (Hrem e He). }
  assert (Eexact : py_sum R == py_sum (values cats) - Amount_sum M).
  { unfold R. rewrite category_remaining_sum.
    rewrite (category_spent_sum cats M Hwf).
    rewrite (filter_all (configured_mask cats) M); [reflexivity|].
    intros r Hr. apply str_in_In. apply filter_In in Hr.
    destruct Hr as [Hr Hmask]. exact (Hconfigured r Hr Hmask). }
  split; [exact EM|]. split.
  - rewrite EF, ER, Eexact, EB, EM. reflexivity.
  - unfold fl_sub.
    rewrite (rnd_proper rnd Hrnd _ (py_sum (values cats) - Amount_sum M))
      by (now rewrite EB, EM).
    rewrite EB, EM. apply (rnd_exact rnd Hrnd).
    + apply whole_minus; assumption.
    + pose proof (Qabs_py_sum (values cats)) as H1.
      pose proof (Qabs_py_sum (map Amount M)) as H2.
      fold (Amount_sum M) in H2.
      pose proof (Qabs_triangle (py_sum (values cats)) (- Amount_sum M)) as Ht.
      rewrite Qabs_opp in Ht.
      change (py_sum (values cats) + - Amount_sum M)
        with (py_sum (values cats) - Amount_sum M) in Ht.
      lra.
Qed.

Lemma remaining_sum_whole_amounts_witness :
  rounding round64 /\
  wf BUDGET_CATEGORIES /\
  (forall c b, In (c, b) BUDGET_CATEGORIES -> whole b) /\
  (forall r, In r whole_df -> whole (Amount r)) /\
  magnitude (values BUDGET_CATEGORIES) + magnitude (map Amount whole_df)
    < inject_Z (2 ^ 53) /\
  (forall r, In r whole_df ->
     month_mask (month june5) (year june5) r = true ->
     In (Category r) (keys BUDGET_CATEGORIES)) /\
  exists m,
    calculate_budget_metrics_rounded round64 june5 june5 whole_df
      BUDGET_CATEGORIES = Some m /\
    remaining_sum_rounded round64 m == total_budget m - total_spent m.
Proof.
  assert (Hwf : wf BUDGET_CATEGORIES) by wf_dict.
  assert (Hb : forall c b, In (c, b) BUDGET_CATEGORIES -> whole b).
  { intros c b Hin. cbn [BUDGET_CATEGORIES In] in Hin.
    repeat (destruct Hin as [Hin|Hin];
            [injection Hin as _ <-; reflexivity|]).
    destruct Hin. }
  assert (Ha : forall r, In r whole_df -> whole (Amount r)).
  { intros r [<-|[<-|[<-|[<-|[]]]]]; reflexivity. }
  assert (Hm : magnitude (values BUDGET_CATEGORIES)
               + magnitude (map Amount whole_df) < inject_Z (2 ^ 53))
    by reflexivity.
  assert (Hc : forall r, In r whole_df ->
                 month_mask (month june5) (year june5) r = true ->
                 In (Category r) (keys BUDGET_CATEGORIES)).
  { intros r [<-|[<-|[<-|[<-|[]]]]] _; cbn; tauto. }
  split; [exact rounding_round64|]. split; [exact Hwf|].
  split; [exact Hb|]. split; [exact Ha|]. split; [exact Hm|].
  split; [exact Hc|].
  destruct (remaining_sum_whole_amounts round64 june5 june5 whole_df
              BUDGET_CATEGORIES rounding_round64 Hwf Hb Ha Hm Hc)
    as [m [Hcalc [_ [Hsum _]]]].
  exists m. split; assumption.
Defined.

(** With an amount that is not a whole number the sums do round.  One
    Groceries row of two cents against the nine budgets: summed category
    by category the remaining amounts come to 41999.979999999996, while
    the total budget less [total_spent] is 41999.980000000003; both are
    the numbers binary64 arithmetic gives. *)
#[warnings="-inexact-float"]
Example two_cents_round :
  exists m,
    calculate_budget_metrics_rounded round64 june5 june5 two_cents
      BUDGET_CATEGORIES = Some m /\
    ~ remaining_sum_rounded round64 m ==
      fl_sub round64 (total_budget m) (total_spent m) /\
    exactly (5000 - 0.02 + 3000 + 15000 + 2000 + 3000 + 2000 + 4000
             + 5000 + 3000)%float
      (remaining_sum_rounded round64 m) /\
    exactly (42000 - 0.02)%float
      (fl_sub round64 (total_budget m) (total_spent m)).
Proof.
  eexists. split; [reflexivity|]. split; [vm_compute; discriminate|].
  split; (eexists; split; [vm_compute; reflexivity|vm_compute; reflexivity]).
Qed.

(** [round64] against the machine's binary64 arithmetic. *)
#[warnings="-inexact-float"]
Example round64_agrees :
  exactly 0.1%float (round64 (1 # 10)) /\
  exactly (0.1 + 0.2)%float
    (fl_add round64 (round64 (1 # 10)) (round64 (2 # 10))) /\
  exactly (5000 - 0.07)%float (fl_sub round64 5000 (round64 (7 # 100))) /\
  exactly (50000 * 0.35)%float (fl_mul round64 50000 (round64 (35 # 100))) /\
  exactly (1 / 3)%float (round64 (1 # 3)) /\
  exactly 9007199254740993%float (round64 9007199254740993).
Proof.
  repeat split;
    (eexists; split; [vm_compute; reflexivity|vm_compute; reflexivity]).
Qed.

(** * The clock *)




(** * Rows and categories *)


(** A new row touches one entry at most.  Appending a row leaves the
    total budget and the entry of every category other than the row's own
    exactly as they were; a row of a category that is not configured
    leaves the whole category table as it was. *)
Theorem append_touches_one_category (now_month now_year : datetime)
    (df : DataFrame) (cats : dict Q) (r : Row) :
  wf cats ->
  exists m m',
    calculate_budget_metrics now_month now_year df cats = Some m /\
    calculate_budget_metrics now_month now_year (concat_row df r) cats
      = Some m' /\
    total_budget m' = total_budget m /\
    (forall c, c <> Category r ->
       get c (category_metrics m') = get c (category_metrics m)) /\
    (~ In (Category r) (keys cats) ->
     category_metrics m' = category_metrics m).
Proof.
  intros Hwf. rewrite !calculate_budget_metrics_wf by exact Hwf. cbv zeta.
  set (f := month_mask (month now_month) (year now_year)).
  do 2 eexists. split; [reflexivity|]. split; [reflexivity|].
  cbn [total_budget category_metrics]. split; [reflexivity|].
  assert (E : forall c, c <> Category r ->
                filter (category_mask c) (filter f (concat_row df r)) =
                filter (category_mask c) (filter f df)).
  { intros c Hc. unfold concat_row. rewrite filter_app. cbn [filter].
    destruct (f r); [|now rewrite app_nil_r].
    rewrite filter_app. cbn [filter]. unfold category_mask at 2.
    destruct (String.eqb_spec (Category r) c) as [Heq|_]; [congruence|].
    apply app_nil_r. }
  split.
  - intros c Hc. rewrite !get_category_entry.
    destruct (get c cats) as [b|]; [|reflexivity]. cbn [option_map].
    unfold category_entry. cbn [fst snd]. now rewrite (E c Hc).
  - intros Hnot. apply map_ext_in. intros [c b] Hin.
    unfold category_entry. cbn [fst snd]. rewrite E; [reflexivity|].
    intros ->. apply Hnot. apply (in_map fst) in Hin. exact Hin.
Qed.

(** The sidebar's number input is well formed for every bracket.  Its
    lower bound and initial value are the bracket's minimum income; its
    upper bound is the bracket's maximum income, except for the open-ended
    bracket "50000+", where it is 1000000 in place of infinity; the upper
    bound lies above the lower bound.  For a label that is not in the
    table building the input fails. *)
Theorem exact_salary_input_bounds (label : string) :
  match get label SALARY_RANGES with
  | Some info =>
      exists upper,
        exact_salary_input label =
          Some (mkNumberInput (min info) (Some upper) (min info)) /\
        min info < upper /\
        (label = "50000+" -> upper = 1000000 /\ max info = None) /\
        (label <> "50000+" -> max info = Some upper) /\
        accepts (mkNumberInput (min info) (Some upper) (min info))
          (min info) = true
  | None => exact_salary_input label = None
  end.
Proof.
  unfold exact_salary_input.
  destruct (get label SALARY_RANGES) as [info|] eqn:Hget;
    [|reflexivity].
  cbn [bind ret]. apply get_Some_In in Hget. cbn [SALARY_RANGES In] in Hget.
  repeat (destruct Hget as [Hget|Hget];
          [injection Hget as <- <-; eexists;
           split; [reflexivity|];
           split; [reflexivity|];
           split; [intros H; try discriminate H; split; reflexivity|];
           split; [intros H; try reflexivity; now elim H|reflexivity]|]).
  destruct Hget.
Qed.

(** On the analysis page of a session reached through the widgets
    nothing spent is negative, the savings rate lies between 0 and 100,
    and the overview's savings are at least the chart's actual savings. *)
Theorem session_page_figures (format_number : Q -> string)
    (now_month now_year : datetime) (interactions : list Interaction)
    (ov : Overview) (m : Metrics) (fig : Figure) (recs : list string) :
  forallb offered interactions = true ->
  render format_number now_month now_year (session interactions)
    = Some (Analysis ov m fig recs) ->
  0 <= total_spent m /\
  0 <= savings_rate ov /\ savings_rate ov <= 100 /\
  exists recommended actual,
    plotted fig = [[recommended; actual]] /\
    0 <= actual /\ actual <= total_savings ov.
Proof.
  intros Hoff Hrender.
  destruct (session_ok_reached interactions Hoff)
    as [[info [Hget Hmin]] Hrows].
  destruct (render_Analysis _ _ _ _ _ _ _ _ Hrender) as [Hm [Hfig [_ ->]]].
  apply (calculate_budget_metrics_inv _ _ _ _ _ wf_BUDGET_CATEGORIES) in Hm.
  cbv zeta in Hm. rewrite Hm in *. clear Hm Hrender.
  set (monthly_df := filter _ (expenses_df (session interactions))) in *.
  cbn [total_spent savings_rate total_savings] in *.
  assert (Hspent : 0 <= Amount_sum monthly_df).
  { apply Amount_sum_nonneg. intros r Hr. apply filter_In in Hr.
    rewrite Forall_forall in Hrows. destruct (Hrows r (proj1 Hr)) as [_ [Ha _]].
    lra. }
  set (salary := monthly_salary (session interactions)) in *.
  destruct (py_max_clamp (salary - Amount_sum monthly_df))
    as [H0 [Hpos Hneg]].
  split; [exact Hspent|].
  assert (Hrate : 0 <= percentage_value
                         (py_max 0 (salary - Amount_sum monthly_df)) salary /\
                  percentage_value
                    (py_max 0 (salary - Amount_sum monthly_df)) salary <= 100).
  { destruct (Qlt_le_dec 0 salary) as [Hs|Hs].
    - destruct (percentage_value_over
                  (py_max 0 (salary - Amount_sum monthly_df)) salary Hs)
        as [Hover [_ Hnonneg]].
      split; [apply Hnonneg; exact H0|].
      apply Qnot_lt_le. intros H. apply Hover in H.
      destruct (Qlt_le_dec (salary - Amount_sum monthly_df) 0) as [Hn|Hn].
      + rewrite Hneg in H by lra. lra.
      + rewrite Hpos in H by exact Hn. lra.
    - unfold percentage_value.
      assert (E : Qgtb salary 0 = false) by (apply Qgtb_false; exact Hs).
      rewrite E. split; [apply Qle_refl|discriminate]. }
  split; [apply Hrate|]. split; [apply Hrate|].
  unfold create_savings_chart in Hfig. rewrite Hget in Hfig.
  cbn [bind ret] in Hfig. injection Hfig as <-.
  do 2 eexists. split; [reflexivity|].
  split; [apply py_max_clamp|].
  apply py_max_mono. lra.
Qed.


Lemma append_touches_one_category_witness :
  let r := mkRow june30 "Utilities" 250 "power" in
  wf BUDGET_CATEGORIES /\
  exists m m',
    calculate_budget_metrics june5 june5 whole_df BUDGET_CATEGORIES
      = Some m /\
    calculate_budget_metrics june5 june5 (concat_row whole_df r)
      BUDGET_CATEGORIES = Some m' /\
    get "Groceries" (category_metrics m') =
    get "Groceries" (category_metrics m).
Proof.
  cbv zeta.
  assert (Hwf : wf BUDGET_CATEGORIES) by wf_dict.
  split; [exact Hwf|].
  destruct (append_touches_one_category june5 june5 whole_df
              BUDGET_CATEGORIES (mkRow june30 "Utilities" 250 "power") Hwf)
    as [m [m' [Hm [Hm' [_ [Hother _]]]]]].
  exists m, m'. split; [exact Hm|]. split; [exact Hm'|].
  apply Hother. discriminate.
Defined.

Lemma session_page_figures_witness :
  forallb offered sample_interactions = true /\
  exists ov m fig recs,
    render plain_number june5 june5 (session sample_interactions)
      = Some (Analysis ov m fig recs) /\
    0 <= total_spent m /\
    0 <= savings_rate ov /\ savings_rate ov <= 100.
Proof.
  assert (Hoff : forallb offered sample_interactions = true) by reflexivity.
  split; [exact Hoff|].
  do 4 eexists. split; [reflexivity|].
  destruct (session_page_figures plain_number june5 june5
              sample_interactions _ _ _ _ Hoff eq_refl)
    as [H0 [H1 [H2 _]]].
  repeat split; assumption.
Defined.
